(** * Wise payment integration (apps/payments/wise.py)

    A shallow embedding of the webhook receiver, the balance-credited
    handler, the statement fetcher, account discovery and the health check,
    together with the properties the specification states about them.

    Python values are dynamically typed, so the payloads (request JSON,
    statement JSON, provider objects) are embedded in one value universe
    [pyval]; exceptions are the [Raise] case of [result]; the database
    session, the clock, the network and the logger are fields of [World],
    threaded by the monad [M]. *)

From stdpp Require Import base option list strings gmap.
From Stdlib Require Import ZArith Ascii String Bool Lia.
From Stdlib Require Import Floats.SpecFloat DecimalString.

Set Warnings "-register-all".
Local Open Scope string_scope.
Local Open Scope list_scope.

(** ** Python values *)

(** JSON objects (plain dicts and Munch objects alike) are association
    lists in insertion order, read by their first binding of a key. *)
Inductive pyval : Type :=
  | PyNone
  | PyBool (b : bool)
  | PyInt (z : Z)
  | PyFloat (f : spec_float)
  | PyStr (s : string)
  | PyList (l : list pyval)
  | PyDict (d : list (string * pyval)).

Inductive exn_kind : Type :=
  | AttributeError
  | KeyError
  | TypeError
  | IndexError
  | ValueError
  | OverflowError
  | UnicodeEncodeError
  | ConnectionError
  | HTTPException (code : Z)
  | Exception.

(** An exception object: its class and its message. *)
Inductive exn : Type := Exn (kind : exn_kind) (msg : string).

Inductive result (A : Type) : Type :=
  | Ok (a : A)
  | Raise (e : exn).
Arguments Ok {A} a.
Arguments Raise {A} e.

Definition is_raise {A} (r : result A) : bool :=
  match r with Ok _ => false | Raise _ => true end.

Definition result_bind {A B} (r : result A) (k : A -> result B) : result B :=
  match r with Ok a => k a | Raise e => Raise e end.

Declare Scope result_scope.
Delimit Scope result_scope with result.
Notation "'let*' x ':=' c 'in' k" := (result_bind c (fun x => k))
  (at level 10, x name, c at level 100, k at level 200,
   format "'[v' 'let*'  x  ':='  c  'in' '/' k ']'") : result_scope.
Local Open Scope result_scope.

(** ** Strings

    A Python [str] is a Stdlib [string]; one [ascii] stands for one
    character, which restricts the model to code points below 256. *)

(** [c.lower()] on a code point below 256: the letters A-Z and the
    Latin-1 capitals U+00C0-U+00DE, the multiplication sign U+00D7 apart,
    move up by 32; every other character stays. *)
Definition ascii_lower (c : ascii) : ascii :=
  let n := N_of_ascii c in
  if (((65 <=? n) && (n <=? 90))
      || ((192 <=? n) && (n <=? 222) && negb (n =? 215)))%N
  then ascii_of_N (n + 32) else c.

(** [s.lower()] *)
Fixpoint str_lower (s : string) : string :=
  match s with
  | EmptyString => EmptyString
  | String c r => String (ascii_lower c) (str_lower r)
  end.

(** [s.replace(old, new)] for a one-character [old]. *)
Fixpoint str_replace (old : ascii) (new : string) (s : string) : string :=
  match s with
  | EmptyString => EmptyString
  | String c r =>
      if Ascii.eqb c old then new ++ str_replace old new r
      else String c (str_replace old new r)
  end.

Fixpoint str_drop (n : nat) (s : string) : string :=
  match n, s with
  | O, _ => s
  | S _, EmptyString => EmptyString
  | S n', String _ r => str_drop n' r
  end.

(** [s[-n:]]: the last [n] characters, the whole string when it is shorter. *)
Definition str_last (n : nat) (s : string) : string :=
  str_drop (String.length s - n) s.

(** [sep.join(parts)] on a list of strings. *)
Fixpoint str_join (sep : string) (parts : list string) : string :=
  match parts with
  | [] => ""
  | [p] => p
  | p :: rest => p ++ sep ++ str_join sep rest
  end.

(** [s.encode("ascii")] *)
Fixpoint str_is_ascii (s : string) : bool :=
  match s with
  | EmptyString => true
  | String c r => (N_of_ascii c <? 128)%N && str_is_ascii r
  end.

(** ** Operations on values *)

Fixpoint assoc_get {V} (k : string) (d : list (string * V)) : option V :=
  match d with
  | [] => None
  | (k', v) :: rest => if String.eqb k k' then Some v else assoc_get k rest
  end.

(** Attribute access on a Munch object: the key's value, AttributeError
    for a missing key and for every value that is not an object (none of
    the attribute names the program reads is a method of a builtin type). *)
Definition py_getattr (o : pyval) (name : string) : result pyval :=
  match o with
  | PyDict d =>
      match assoc_get name d with
      | Some v => Ok v
      | None => Raise (Exn AttributeError name)
      end
  | _ => Raise (Exn AttributeError name)
  end.

(** [o.get(key, default)]: only dicts have the method. *)
Definition py_get (o : pyval) (key : string) (default : pyval) : result pyval :=
  match o with
  | PyDict d => Ok (match assoc_get key d with Some v => v | None => default end)
  | _ => Raise (Exn AttributeError "get")
  end.

(** Truth value of an object, as [if x:] and [not x] take it. *)
Definition py_truthy (v : pyval) : bool :=
  match v with
  | PyNone => false
  | PyBool b => b
  | PyInt z => negb (z =? 0)%Z
  | PyFloat (S754_zero _) => false
  | PyFloat _ => true
  | PyStr s => negb (String.eqb s "")
  | PyList l => match l with [] => false | _ => true end
  | PyDict d => match d with [] => false | _ => true end
  end.

(** [len(x)] *)
Definition py_len (v : pyval) : result nat :=
  match v with
  | PyStr s => Ok (String.length s)
  | PyList l => Ok (List.length l)
  | PyDict d => Ok (List.length d)
  | _ => Raise (Exn TypeError "object has no len()")
  end.

(** [for x in v]: the elements of a list, the keys of a dict, the
    characters of a string; nothing else is iterable. *)
Definition py_iter (v : pyval) : result (list pyval) :=
  match v with
  | PyList l => Ok l
  | PyDict d => Ok (map (fun kv => PyStr (fst kv)) d)
  | PyStr s => Ok (map (fun c => PyStr (String c EmptyString)) (list_ascii_of_string s))
  | _ => Raise (Exn TypeError "object is not iterable")
  end.

(** [x == 0] *)
Definition py_eq_zero (v : pyval) : bool :=
  match v with
  | PyInt z => (z =? 0)%Z
  | PyBool b => negb b
  | PyFloat (S754_zero _) => true
  | _ => false
  end.

(** [x == "literal"] and [x != "literal"] *)
Definition py_eq_str (v : pyval) (s : string) : bool :=
  match v with
  | PyStr s' => String.eqb s' s
  | _ => false
  end.

(** [int(x)] for the values a configuration entry can hold.  A string is
    read as [int()] reads it: white space around the literal is dropped,
    an optional sign follows, then decimal digits, where single
    underscores may stand between two digits. *)

(** The characters [int()] takes for white space, below 256: U+0009-U+000D,
    U+0020, U+0085 and U+00A0. *)
Definition is_space (c : ascii) : bool :=
  let n := N_of_ascii c in
  (((9 <=? n) && (n <=? 13)) || (n =? 32) || (n =? 133) || (n =? 160))%N.

Definition is_digit (c : ascii) : bool :=
  let n := N_of_ascii c in ((48 <=? n) && (n <=? 57))%N.

Fixpoint all_space (s : string) : bool :=
  match s with
  | EmptyString => true
  | String c r => is_space c && all_space r
  end.

Fixpoint lstrip (s : string) : string :=
  match s with
  | EmptyString => EmptyString
  | String c r => if is_space c then lstrip r else s
  end.

(** The digits of the literal, up to its end or the white space that
    closes it; [seen] tells that the character before was a digit. *)
Fixpoint digits_value (acc : Z) (seen : bool) (s : string) : option Z :=
  match s with
  | EmptyString => if seen then Some acc else None
  | String c r =>
      if is_digit c
      then digits_value (10 * acc + Z.of_N (N_of_ascii c - 48)) true r
      else if Ascii.eqb c "_"
      then match r with
           | String c' _ =>
               if seen && is_digit c' then digits_value acc false r else None
           | EmptyString => None
           end
      else if seen && is_space c && all_space r then Some acc
      else None
  end.

Definition parse_int (s : string) : option Z :=
  match lstrip s with
  | String "-" r => option_map Z.opp (digits_value 0 false r)
  | String "+" r => digits_value 0 false r
  | r => digits_value 0 false r
  end.

Definition py_int (v : pyval) : result Z :=
  match v with
  | PyInt z => Ok z
  | PyBool b => Ok (if b then 1 else 0)%Z
  | PyStr s =>
      match parse_int s with
      | Some z => Ok z
      | None => Raise (Exn ValueError "invalid literal for int()")
      end
  | PyFloat (S754_zero _) => Ok 0%Z
  | PyFloat (S754_finite sg m e) =>
      let mag := match e with
                 | Z0 => Zpos m
                 | Zpos p => (Zpos m * 2 ^ Zpos p)%Z
                 | Zneg p => (Zpos m / 2 ^ Zpos p)%Z
                 end in
      Ok (if sg then - mag else mag)%Z
  | PyFloat (S754_infinity _) => Raise (Exn OverflowError "cannot convert float infinity to integer")
  | PyFloat S754_nan => Raise (Exn ValueError "cannot convert float NaN to integer")
  | _ => Raise (Exn TypeError "int() argument")
  end.

(** [a + b] where [b] is known to be a string: defined for strings only. *)
Definition py_add_str (a : pyval) (b : pyval) : result pyval :=
  match a, b with
  | PyStr x, PyStr y => Ok (PyStr (x ++ y))
  | _, _ => Raise (Exn TypeError "unsupported operand type(s) for +")
  end.

Fixpoint all_strs (items : list pyval) : option (list string) :=
  match items with
  | [] => Some []
  | PyStr s :: rest => option_map (cons s) (all_strs rest)
  | _ :: _ => None
  end.

(** [sep.join(items)]: every item has to be a string. *)
Definition py_join (sep : string) (items : list pyval) : result string :=
  match all_strs items with
  | Some parts => Ok (str_join sep parts)
  | None => Raise (Exn TypeError "sequence item: expected str instance")
  end.

(** Structural equality of values; the comparison a query makes between a
    bound parameter and a stored column value. *)
Fixpoint pyval_eqb (a b : pyval) : bool :=
  match a, b with
  | PyNone, PyNone => true
  | PyBool x, PyBool y => Bool.eqb x y
  | PyInt x, PyInt y => (x =? y)%Z
  | PyFloat x, PyFloat y =>
      match x, y with
      | S754_zero s, S754_zero t => Bool.eqb s t
      | S754_infinity s, S754_infinity t => Bool.eqb s t
      | S754_nan, S754_nan => true
      | S754_finite s m e, S754_finite t n f =>
          Bool.eqb s t && (m =? n)%positive && (e =? f)%Z
      | _, _ => false
      end
  | PyStr x, PyStr y => String.eqb x y
  | PyList xs, PyList ys =>
      (fix go (xs ys : list pyval) : bool :=
         match xs, ys with
         | [], [] => true
         | x :: xs', y :: ys' => pyval_eqb x y && go xs' ys'
         | _, _ => false
         end) xs ys
  | PyDict xs, PyDict ys =>
      (fix go (xs ys : list (string * pyval)) : bool :=
         match xs, ys with
         | [], [] => true
         | (k, x) :: xs', (l, y) :: ys' => String.eqb k l && pyval_eqb x y && go xs' ys'
         | _, _ => false
         end) xs ys
  | _, _ => false
  end.

(** ** The data model (models.payment) *)

(** Modelled from the spec: the BankAccount row of section 3, with the
    columns the constructor call in [_collect_bank_accounts] and the query
    in [wise_balance_credit] name.  [id] is unset until the row is stored. *)
Record BankAccount : Type := {
  id : option Z;
  sort_code : pyval;
  acct_id : pyval;
  currency : pyval;
  active : bool;
  institution : pyval;
  address : string;
  swift : pyval;
  iban : pyval;
  borderless_account_id : pyval;
}.

(** Modelled from the spec: the BankTransaction row of section 3, with the
    columns the constructor call in [wise_balance_credit] names. *)
Record BankTransaction : Type := {
  account_id : option Z;
  posted : pyval;
  type : string;
  amount : pyval;
  payee : pyval;
}.

(** ** Account discovery *)

(** The guard at the head of the loop body of [_collect_bank_accounts]:
    [Ok true] when the balance carries bank details and a bank address. *)
Definition has_bank_details (account : pyval) : result bool :=
  let* bankDetails := py_getattr account "bankDetails" in
  if negb (py_truthy bankDetails) then Ok false
  else
    let* bankAddress := py_getattr bankDetails "bankAddress" in
    if negb (py_truthy bankAddress) then Ok false else Ok true.

(** The address line built from [account.bankDetails.bankAddress]. *)
Definition bank_address (bankAddress : pyval) : result string :=
  let* addressFirstLine := py_getattr bankAddress "addressFirstLine" in
  let* city := py_getattr bankAddress "city" in
  let* city_sp := py_add_str city (PyStr " ") in
  let* postCode := py_getattr bankAddress "postCode" in
  let* city_line := py_add_str city_sp (if py_truthy postCode then postCode else PyStr "") in
  let* country := py_getattr bankAddress "country" in
  py_join ", " [addressFirstLine; city_line; country].

(** The currency-specific routing fields: [(sort_code, account_number)]. *)
Definition routing_fields (bankDetails : pyval) : result (pyval * pyval) :=
  let* cur := py_getattr bankDetails "currency" in
  if py_eq_str cur "GBP" then
    let* bankCode := py_getattr bankDetails "bankCode" in
    let* accountNumber := py_getattr bankDetails "accountNumber" in
    let* n := py_len accountNumber in
    if Nat.eqb n 8 then Ok (bankCode, accountNumber)
    else
      match accountNumber with
      | PyStr s => Ok (bankCode, PyStr (str_last 8 (str_replace " " "" s)))
      | _ => Raise (Exn AttributeError "replace")
      end
  else Ok (PyNone, PyNone).

(** One iteration of the loop of [_collect_bank_accounts]: [Ok None] when
    the balance is skipped, [Ok (Some b)] when [b] is yielded. *)
Definition collect_balance (borderless_account account : pyval)
  : result (option BankAccount) :=
  match has_bank_details account with
  | Raise (Exn AttributeError _) => Ok None
  | Raise e => Raise e
  | Ok false => Ok None
  | Ok true =>
      let* bankDetails := py_getattr account "bankDetails" in
      let* bankAddress := py_getattr bankDetails "bankAddress" in
      let* address := bank_address bankAddress in
      let* routing := routing_fields bankDetails in
      let* cur := py_getattr bankDetails "currency" in
      let* bankName := py_getattr bankDetails "bankName" in
      let* swift := py_get bankDetails "swift" PyNone in
      let* iban := py_get bankDetails "iban" PyNone in
      let* bid := py_getattr borderless_account "id" in
      Ok (Some {| id := None;
                  sort_code := fst routing;
                  acct_id := snd routing;
                  currency := cur;
                  active := false;
                  institution := bankName;
                  address := address;
                  swift := swift;
                  iban := iban;
                  borderless_account_id := bid |})
  end.

(** A generator's run: the items it yields and the exception that ends it,
    if one does. *)
Definition generated (A : Type) : Type := (list A * option exn)%type.

Fixpoint collect_balances (borderless_account : pyval) (accounts : list pyval)
  : generated BankAccount :=
  match accounts with
  | [] => ([], None)
  | account :: rest =>
      match collect_balance borderless_account account with
      | Raise e => ([], Some e)
      | Ok None => collect_balances borderless_account rest
      | Ok (Some b) =>
          let (bs, e) := collect_balances borderless_account rest in (b :: bs, e)
      end
  end.

Definition _collect_bank_accounts (borderless_account : pyval)
  : generated BankAccount :=
  match py_getattr borderless_account "balances" with
  | Raise e => ([], Some e)
  | Ok balances =>
      match py_iter balances with
      | Raise e => ([], Some e)
      | Ok accounts => collect_balances borderless_account accounts
      end
  end.

(** ** The environment *)

Inductive padding : Type := PKCS1v15 | PSS | OAEP.
Inductive hash_alg : Type := SHA1 | SHA256 | SHA512.
Inductive log_level : Type := INFO | WARNING | ERROR.

(** A request sent with [requests.get]. *)
Record HttpRequest : Type := {
  url : string;
  params : list (string * pyval);
  out_headers : gmap string string;
}.

(** A response of the [requests] library; [json] is what [resp.json()]
    gives, an exception when the body is not JSON. *)
Record Response : Type := {
  status_code : Z;
  headers : list (string * string);
  json : result pyval;
}.

(** The Flask request. [request_json] is what [request.json] gives. *)
Record Request : Type := {
  request_data : string;
  request_headers : list (string * string);
  request_json : result pyval;
}.

(** [headers[name]] on a case-insensitive header mapping. *)
Fixpoint header_get (hs : list (string * string)) (name : string) : result string :=
  match hs with
  | [] => Raise (Exn KeyError name)
  | (k, v) :: rest =>
      if String.eqb (str_lower k) (str_lower name) then Ok v else header_get rest name
  end.

(** What the module takes from its libraries, its configuration and the
    provider's client: the parts of the program that are not in this file.
    A datetime is a count of microseconds. *)
Record Platform : Type := {
  (** the key object of the [cryptography] library *)
  PrivateKey : Type;
  (** [app.config] *)
  config : gmap string pyval;
  (** whether [db.session] flushes the rows added to it before a query *)
  autoflush : bool;
  (** [str(x)], as an f-string formats a value *)
  py_str : pyval -> string;
  (** [datetime.isoformat()] *)
  isoformat : Z -> string;
  b64decode : string -> result string;
  b64encode : string -> string;
  (** [pywisetransfer.webhooks.verify_signature(payload, signature)] *)
  verify_signature : string -> string -> bool;
  (** [open(path, "rb").read()] *)
  open_read : pyval -> result string;
  (** [load_pem_private_key(data, None)] *)
  load_pem_private_key : string -> result PrivateKey;
  (** [key.sign(message, padding, algorithm)] *)
  sign : PrivateKey -> string -> padding -> hash_alg -> result string;
  (** [client.borderless_accounts.service.domain] and [.required_headers] *)
  client_domain : string;
  client_required_headers : gmap string string;
  (** [client.users.me()] *)
  users_me : result pyval;
  (** [client.profiles.list(type=...)] *)
  profiles_list : string -> result (list pyval);
  (** [client.borderless_accounts.list(profile_id=...)] *)
  borderless_accounts_list : pyval -> result (list pyval);
  (** [client.subscriptions.list(profile_id=...)] *)
  subscriptions_list : pyval -> result pyval;
}.

(** The state the module reads and writes: the two tables, the rows added
    to the session and not yet committed, the row locks taken, the clock,
    the responses the provider is going to give (in order), the requests
    sent, the log, and the event types handed to a handler. *)
Record World : Type := {
  bank_accounts : list BankAccount;
  bank_transactions : list BankTransaction;
  session_new : list BankTransaction;
  row_locks : list (option Z);
  clock : Z;
  network : list Response;
  sent : list HttpRequest;
  log : list (log_level * string);
  dispatched : list pyval;
}.

Definition M (A : Type) : Type := World -> result A * World.

Definition ret {A} (a : A) : M A := fun w => (Ok a, w).
Definition raise {A} (e : exn) : M A := fun w => (Raise e, w).
Definition lift {A} (r : result A) : M A := fun w => (r, w).

Definition bind {A B} (c : M A) (k : A -> M B) : M B :=
  fun w => match c w with
           | (Ok a, w') => k a w'
           | (Raise e, w') => (Raise e, w')
           end.

(** [try: c  except Exception as e: h e] *)
Definition try_except {A} (c : M A) (h : exn -> M A) : M A :=
  fun w => match c w with
           | (Ok a, w') => (Ok a, w')
           | (Raise e, w') => h e w'
           end.

Declare Scope M_scope.
Delimit Scope M_scope with M.
Notation "'let!' x ':=' c 'in' k" := (bind c (fun x => k))
  (at level 10, x name, c at level 100, k at level 200,
   format "'[v' 'let!'  x  ':='  c  'in' '/' k ']'") : M_scope.
Notation "c ';;' k" := (bind c (fun _ => k))
  (at level 100, k at level 200, right associativity) : M_scope.
Local Open Scope M_scope.

(** [abort(code)] raises the framework's HTTP exception. *)
Definition abort {A} (code : Z) : M A := raise (Exn (HTTPException code) "").

Definition logger (level : log_level) (msg : string) : M unit :=
  fun w => (Ok tt,
            {| bank_accounts := bank_accounts w;
               bank_transactions := bank_transactions w;
               session_new := session_new w;
               row_locks := row_locks w;
               clock := clock w;
               network := network w;
               sent := sent w;
               log := log w ++ [(level, msg)];
               dispatched := dispatched w |}).

(** [datetime.now()] *)
Definition datetime_now : M Z := fun w => (Ok (clock w), w).

(** [requests.get(url, params=params, headers=headers)]: the request is
    sent and the provider's next response comes back. *)
Definition requests_get (u : string) (ps : list (string * pyval))
    (hs : gmap string string) : M Response :=
  fun w =>
    let w' rest :=
      {| bank_accounts := bank_accounts w;
         bank_transactions := bank_transactions w;
         session_new := session_new w;
         row_locks := row_locks w;
         clock := clock w;
         network := rest;
         sent := sent w ++ [{| url := u; params := ps; out_headers := hs |}];
         log := log w;
         dispatched := dispatched w |} in
    match network w with
    | [] => (Raise (Exn ConnectionError "no response"), w' [])
    | resp :: rest => (Ok resp, w' rest)
    end.

(** [db.session.add(txn)] *)
Definition db_session_add (txn : BankTransaction) : M unit :=
  fun w => (Ok tt,
            {| bank_accounts := bank_accounts w;
               bank_transactions := bank_transactions w;
               session_new := session_new w ++ [txn];
               row_locks := row_locks w;
               clock := clock w;
               network := network w;
               sent := sent w;
               log := log w;
               dispatched := dispatched w |}).

(** [db.session.commit()] *)
Definition db_session_commit : M unit :=
  fun w => (Ok tt,
            {| bank_accounts := bank_accounts w;
               bank_transactions := bank_transactions w ++ session_new w;
               session_new := [];
               row_locks := [];
               clock := clock w;
               network := network w;
               sent := sent w;
               log := log w;
               dispatched := dispatched w |}).

(** [BankAccount.query.with_for_update().get(id)] *)
Definition lock_bank_account (i : option Z) : M unit :=
  fun w => (Ok tt,
            {| bank_accounts := bank_accounts w;
               bank_transactions := bank_transactions w;
               session_new := session_new w;
               row_locks := row_locks w ++ [i];
               clock := clock w;
               network := network w;
               sent := sent w;
               log := log w;
               dispatched := dispatched w |}).

Definition record_dispatch (event_type : pyval) : M unit :=
  fun w => (Ok tt,
            {| bank_accounts := bank_accounts w;
               bank_transactions := bank_transactions w;
               session_new := session_new w;
               row_locks := row_locks w;
               clock := clock w;
               network := network w;
               sent := sent w;
               log := log w;
               dispatched := dispatched w ++ [event_type] |}).

(** [BankAccount.query.filter_by(borderless_account_id=..., currency=...,
    active=True).first()] *)
Definition bank_account_matches (bid cur : pyval) (b : BankAccount) : bool :=
  pyval_eqb (borderless_account_id b) bid && pyval_eqb (currency b) cur && active b.

Definition find_bank_account (bid cur : pyval) : M (option BankAccount) :=
  fun w => (Ok (List.find (bank_account_matches bid cur) (bank_accounts w)), w).

(** The natural key of a BankTransaction row. *)
Definition transaction_matches (acct : option Z) (date : pyval) (ty : string)
    (ref : pyval) (t : BankTransaction) : bool :=
  match acct, account_id t with
  | Some a, Some b => (a =? b)%Z
  | None, None => true
  | _, _ => false
  end
  && pyval_eqb (posted t) date && String.eqb (type t) ty && pyval_eqb (payee t) ref.

(** The rows a query sees: the committed ones and, when the session
    flushes before it queries, the ones added in this request. *)
Definition visible_transactions (flush : bool) (w : World) : list BankTransaction :=
  bank_transactions w ++ (if flush then session_new w else []).

(** [BankTransaction.query.filter_by(account_id=..., posted=..., type=...,
    payee=...).first()] *)
Definition find_transaction (flush : bool) (acct : option Z) (date : pyval)
    (ty : string) (ref : pyval) : M (option BankTransaction) :=
  fun w => (Ok (List.find (transaction_matches acct date ty ref)
                  (visible_transactions flush w)), w).

Definition is_none (v : pyval) : bool :=
  match v with PyNone => true | _ => false end.

(** [str(e)] *)
Definition exn_str (e : exn) : string :=
  match e with Exn _ msg => msg end.

(** The status the framework answers with: the view's status when it
    returns, the code of an [abort], 500 for any other exception. *)
Definition response_status (r : result (string * Z)) : Z :=
  match r with
  | Ok (_, code) => code
  | Raise (Exn (HTTPException code) _) => code
  | Raise _ => 500
  end.

(** The end of a request: what the session holds and did not commit is
    dropped, its locks are released; the next request meets the responses
    [net] and the clock reading [t]. *)
Definition next_request (net : list Response) (t : Z) (w : World) : World :=
  {| bank_accounts := bank_accounts w;
     bank_transactions := bank_transactions w;
     session_new := [];
     row_locks := [];
     clock := t;
     network := net;
     sent := sent w;
     log := log w;
     dispatched := dispatched w |}.

(** [event.get("data", {}).get("resource", {}).get(key)] *)
Definition event_resource (event : pyval) (key : string) : result pyval :=
  let* data := py_get event "data" (PyDict []) in
  let* resource := py_get data "resource" (PyDict []) in
  py_get resource key PyNone.

(** [event.get("data", {}).get(key)] *)
Definition event_data (event : pyval) (key : string) : result pyval :=
  let* data := py_get event "data" (PyDict []) in
  py_get data key PyNone.

Definition handler : Type := pyval -> pyval -> M (string * Z).

(** [d[key] = value] on a dict held as an association list: an equal key
    keeps its place and gets the new value, a new key goes to the end.
    Keys are compared structurally, which is Python's comparison for
    [None] and for strings. *)
Fixpoint dict_set {V} (key : pyval) (value : V) (d : list (pyval * V))
  : list (pyval * V) :=
  match d with
  | [] => [(key, value)]
  | (k, v) :: rest =>
      if pyval_eqb k key then (k, value) :: rest
      else (k, v) :: dict_set key value rest
  end.

(** The decorator [@webhook(type)]: it stores [f] in the registry under
    [type] and gives [f] back; a list or a dict cannot be a key. *)
Definition webhook (type : pyval) (f : handler)
    (webhook_handlers : list (pyval * handler))
  : result (handler * list (pyval * handler)) :=
  match type with
  | PyList _ | PyDict _ => Raise (Exn TypeError "unhashable type")
  | _ => Ok (f, dict_set type f webhook_handlers)
  end.

Section Wise.

Context (P : Platform).

(** ** Statement fetcher *)

Definition statement_url (profile_id account_id : pyval) : string :=
  (client_domain P ++ "/v3/profiles/" ++ py_str P profile_id
     ++ "/borderless-accounts/" ++ py_str P account_id
     ++ "/statement.json")%string.

Definition statement_params (currency : pyval) (interval_start interval_end : string)
  : list (string * pyval) :=
  [("currency", currency);
   ("intervalStart", PyStr interval_start);
   ("intervalEnd", PyStr interval_end)].

(** [resp.status_code == 403 and
     resp.headers["X-2FA-Approval-Result"] == "REJECTED"] *)
Definition challenged (resp : Response) : result bool :=
  if (status_code resp =? 403)%Z
  then let* r := header_get (headers resp) "X-2FA-Approval-Result" in
       Ok (String.eqb r "REJECTED")
  else Ok false.

(** The body of the 2FA branch up to the retry: the headers of the second
    request, made from the challenge of the first response. *)
Definition answer_challenge (resp : Response) (headers0 : gmap string string)
  : result (gmap string string) :=
  let* challenge := header_get (headers resp) "X-2FA-Approval" in
  let* path :=
    match config P !! "TRANSFERWISE_PRIVATE_KEY" with
    | Some v => Ok v
    | None => Raise (Exn KeyError "TRANSFERWISE_PRIVATE_KEY")
    end in
  let* pem := open_read P path in
  let* key := load_pem_private_key P pem in
  let* message :=
    if str_is_ascii challenge then Ok challenge
    else Raise (Exn UnicodeEncodeError "ascii") in
  let* signature := sign P key message PKCS1v15 SHA256 in
  Ok (<["X-2FA-Approval" := challenge]>
        (<["X-Signature" := b64encode P signature]> headers0)).

(** The end of [wise_statement]: the check of the final response and
    [munchify(resp.json())], which is the identity on [pyval]. *)
Definition statement_result (resp : Response) : result pyval :=
  let* approved :=
    if negb (status_code resp =? 200)%Z then Ok false
    else let* r := header_get (headers resp) "X-2FA-Approval-Result" in
         Ok (String.eqb r "APPROVED") in
  if negb approved then Raise (Exn Exception "Error fetching statement")
  else json resp.

Definition wise_statement (profile_id account_id currency : pyval)
    (interval_start interval_end : string) : M pyval :=
  let headers0 := client_required_headers P in
  let params := statement_params currency interval_start interval_end in
  let url := statement_url profile_id account_id in
  let! resp := requests_get url params headers0 in
  let! rejected := lift (challenged resp) in
  let! resp :=
    (if rejected : bool then
       let! headers1 := lift (answer_challenge resp headers0) in
       requests_get url params headers1
     else ret resp) in
  lift (statement_result resp).

(** ** Balance-credited handler *)

(** The natural key of a statement entry, as the query's arguments are
    evaluated: nothing for an entry that is not a CREDIT, otherwise the
    posted date, the lower-cased detail type and the payment reference. *)
Definition credit_key (transaction : pyval)
  : result (option (pyval * string * pyval)) :=
  let* ty := py_getattr transaction "type" in
  if negb (py_eq_str ty "CREDIT") then Ok None
  else
    let* date := py_getattr transaction "date" in
    let* details := py_getattr transaction "details" in
    let* dtype := py_getattr details "type" in
    let* lowered :=
      match dtype with
      | PyStr s => Ok (str_lower s)
      | _ => Raise (Exn AttributeError "lower")
      end in
    let* ref := py_getattr details "paymentReference" in
    Ok (Some (date, lowered, ref)).

(** One iteration of the loop over [statement.transactions]; [txns] is the
    list of rows constructed so far. *)
Definition reconcile_entry (bank_account : BankAccount) (transaction : pyval)
    (txns : list BankTransaction) : M (list BankTransaction) :=
  let! key := lift (credit_key transaction) in
  match key with
  | None => ret txns
  | Some (date, lowered, ref) =>
      let! txn := find_transaction (autoflush P) (id bank_account) date lowered ref in
      match txn with
      | Some _ => ret txns
      | None =>
          let! amt := lift (py_getattr transaction "amount") in
          let! value := lift (py_getattr amt "value") in
          let txn := {| account_id := id bank_account;
                        posted := date;
                        type := lowered;
                        amount := value;
                        payee := ref |} in
          db_session_add txn ;;
          ret (txns ++ [txn])
      end
  end.

Fixpoint reconcile (bank_account : BankAccount) (transactions : list pyval)
    (txns : list BankTransaction) : M (list BankTransaction) :=
  match transactions with
  | [] => ret txns
  | transaction :: rest =>
      let! txns' := reconcile_entry bank_account transaction txns in
      reconcile bank_account rest txns'
  end.

(** The second half of [wise_balance_credit]: the lock, the loop over the
    statement and the commit. *)
Definition import_statement (bank_account : BankAccount) (statement : pyval)
  : M (string * Z) :=
  lock_bank_account (id bank_account) ;;
  let! transactions := lift (py_getattr statement "transactions") in
  let! entries := lift (py_iter transactions) in
  let! txns := reconcile bank_account entries [] in
  logger INFO "Imported %s transactions" ;;
  db_session_commit ;;
  ret ("", 204%Z).

Definition wise_balance_credit (event_type event : pyval) : M (string * Z) :=
  let! profile_id := lift (event_resource event "profile_id") in
  if is_none profile_id then
    logger ERROR "Missing profile_id in Wise webhook" ;; abort 400
  else
  let! borderless_account_id := lift (event_resource event "id") in
  if is_none borderless_account_id then
    logger ERROR "Missing borderless_account_id in Wise webhook" ;; abort 400
  else
  if py_eq_zero borderless_account_id then ret ("", 204%Z)
  else
  let! currency := lift (event_data event "currency") in
  if is_none currency then
    logger ERROR "Missing currency in Wise webhook" ;; abort 400
  else
  logger INFO "Checking Wise details for borderless_account_id %s and currency %s" ;;
  let! found := find_bank_account borderless_account_id currency in
  match found with
  | None => logger WARNING "Could not find bank account" ;; ret ("", 204%Z)
  | Some bank_account =>
      let! interval_end := datetime_now in
      let interval_start := (interval_end - 7 * 86400 * 1000000)%Z in
      let! fetched :=
        try_except
          (let! statement :=
             wise_statement profile_id borderless_account_id currency
               (isoformat P interval_start ++ "Z")
               (isoformat P interval_end ++ "Z") in
           ret (Some statement))
          (fun _ => logger ERROR "Could not fetch statement" ;; ret None) in
      match fetched with
      | None => ret ("", 204%Z)
      | Some statement => import_statement bank_account statement
      end
  end.

(** ** Webhook receiver *)

(** [webhook_handlers[event_type]]: a list or a dict cannot be a key. *)
Fixpoint registry_get (handlers : list (pyval * handler)) (event_type : pyval)
  : result handler :=
  match event_type with
  | PyList _ | PyDict _ => Raise (Exn TypeError "unhashable type")
  | _ =>
      match handlers with
      | [] => Raise (Exn KeyError "event_type")
      | (k, h) :: rest =>
          if pyval_eqb k event_type then Ok h else registry_get rest event_type
      end
  end.

Definition wise_webhook (webhook_handlers : list (pyval * handler))
    (request : Request) : M (string * Z) :=
  logger INFO "Received Wise webhook request: data=%r headers=%r" ;;
  try_except
    (let! signature := lift (header_get (request_headers request) "X-Signature") in
     let! decoded := lift (b64decode P signature) in
     let! body := lift (request_json request) in
     if is_none body then raise (Exn ValueError "Request does not contain JSON")
     else ret tt)
    (fun _ => logger ERROR "Unable to parse Wise webhook request" ;; abort 400) ;;
  let! signature := lift (header_get (request_headers request) "X-Signature") in
  let valid_signature := verify_signature P (request_data request) signature in
  if negb valid_signature then
    logger ERROR "Error verifying Wise webhook signature" ;; abort 400
  else
  let! body := lift (request_json request) in
  let! schema_version := lift (py_get body "schema_version" PyNone) in
  if negb (py_eq_str schema_version "2.0.0") then
    logger WARNING "Unsupported Wise schema version %s" ;; abort 500
  else
  let! event_type := lift (py_get body "event_type" PyNone) in
  let! handler :=
    try_except (lift (registry_get webhook_handlers event_type))
      (fun e => match e with
                | Exn KeyError _ =>
                    logger WARNING "Unhandled Wise webhook event type %s" ;; abort 500
                | _ => raise e
                end) in
  try_except
    (record_dispatch event_type ;; handler event_type body)
    (fun _ => logger ERROR "Unhandled exception during Wise webhook" ;; abort 500).

(** The registry the [@webhook] decorator fills at import time. *)
Definition webhook_handlers : list (pyval * handler) :=
  [(PyStr "balances#credit", wise_balance_credit)].

(** ** Business profile and account discovery *)

(** [list(filter(lambda p: p.type == "business", profiles))] *)
Fixpoint filter_business (profiles : list pyval) : result (list pyval) :=
  match profiles with
  | [] => Ok []
  | p :: rest =>
      let* ty := py_getattr p "type" in
      let* kept := filter_business rest in
      Ok (if py_eq_str ty "business" then p :: kept else kept)
  end.

Definition wise_business_profile : result pyval :=
  let configured :=
    match config P !! "TRANSFERWISE_PROFILE_ID" with
    | Some v => v
    | None => PyNone
    end in
  if py_truthy configured then
    let* profile := py_int configured in
    let* borderless_accounts := borderless_accounts_list P (PyInt profile) in
    if Nat.eqb (List.length borderless_accounts) 0
    then Raise (Exn Exception "Provided TRANSFERWISE_PROFILE_ID has no accoutns")
    else Ok (PyInt profile)
  else
    let* listed := profiles_list P "business" in
    let* profiles := filter_business listed in
    if Nat.ltb 1 (List.length profiles)
    then Raise (Exn Exception "Multiple business profiles found")
    else
      match profiles with
      | [] => Raise (Exn IndexError "list index out of range")
      | p :: _ => py_getattr p "id"
      end.

Fixpoint collect_all (borderless_accounts : list pyval) : generated BankAccount :=
  match borderless_accounts with
  | [] => ([], None)
  | borderless_account :: rest =>
      match _collect_bank_accounts borderless_account with
      | (bs, Some e) => (bs, Some e)
      | (bs, None) => let (bs', e) := collect_all rest in (bs ++ bs', e)
      end
  end.

Definition wise_retrieve_accounts : generated BankAccount :=
  match wise_business_profile with
  | Raise e => ([], Some e)
  | Ok business_profile =>
      if negb (py_truthy business_profile) then ([], None)
      else
        match borderless_accounts_list P business_profile with
        | Raise e => ([], Some e)
        | Ok borderless_accounts => collect_all borderless_accounts
        end
  end.

(** ** Health check *)

(** The entry each probe of [wise_validate] appends to the report. *)
Definition probe_environment : bool * string :=
  let env :=
    match config P !! "TRANSFERWISE_ENVIRONMENT" with
    | Some v => v
    | None => PyNone
    end in
  if py_eq_str env "sandbox" then (true, "Sandbox environment being used")
  else if py_eq_str env "live" then (true, "Live environment being used")
  else (false, "No environment configured").

Definition probe_token : result (bool * string) :=
  let val :=
    match config P !! "TRANSFERWISE_API_TOKEN" with
    | Some v => v
    | None => PyStr ""
    end in
  let* n := py_len val in
  Ok (if Nat.eqb n 36 then (true, "Access token set")
      else (false, "Access token not set")).

Definition probe_connection : bool * string :=
  match users_me P with
  | Ok _ => (true, "Connection to Wise API succeeded")
  | Raise e => (false, ("Unable to connect to Wise: " ++ exn_str e)%string)
  end.

Definition probe_profile (business_profile : pyval) : bool * string :=
  if py_truthy business_profile then (true, "Wise business profile exists")
  else (false, "Wise business profile does not exist").

Definition probe_webhooks (webhooks : pyval) : bool * string :=
  if py_truthy webhooks then (true, "Webhook event subscriptions are present")
  else (false, "Webhook event subscriptions are not present").

(** The first three probes return the report as soon as they fail; the
    profile probe appends its entry and goes on to the subscriptions. *)
Definition wise_validate : result (list (bool * string)) :=
  let result0 : list (bool * string) := [] in
  let result1 := result0 ++ [probe_environment] in
  if negb (fst probe_environment) then Ok result1
  else
    let* token := probe_token in
    let result2 := result1 ++ [token] in
    if negb (fst token) then Ok result2
    else
      let result3 := result2 ++ [probe_connection] in
      if negb (fst probe_connection) then Ok result3
      else
        let* business_profile := wise_business_profile in
        let result4 := result3 ++ [probe_profile business_profile] in
        let* webhooks := subscriptions_list P business_profile in
        Ok (result4 ++ [probe_webhooks webhooks]).

End Wise.

(** * Vocabulary of the properties *)

(** The request [wise_statement] sends with the headers [hs]. *)
Definition statement_request (P : Platform) (profile_id account_id currency : pyval)
    (interval_start interval_end : string) (hs : gmap string string) : HttpRequest :=
  {| url := statement_url P profile_id account_id;
     params := statement_params currency interval_start interval_end;
     out_headers := hs |}.

(** [covered b rows e]: the statement entry [e] is no CREDIT, or its key
    matches one of [rows]. *)
Definition covered (bank_account : BankAccount) (rows : list BankTransaction)
    (transaction : pyval) : bool :=
  match credit_key transaction with
  | Ok None => true
  | Ok (Some (date, lowered, ref)) =>
      existsb (transaction_matches (id bank_account) date lowered ref) rows
  | Raise _ => false
  end.


(** The statement [wise_statement] returns, as a function of the responses
    the provider is going to give. *)
Definition fetched (P : Platform) (net : list Response) : result pyval :=
  match net with
  | [] => Raise (Exn ConnectionError "no response")
  | first :: rest =>
      let* rejected := challenged first in
      if rejected : bool then
        let* headers1 := answer_challenge P first (client_required_headers P) in
        match rest with
        | [] => Raise (Exn ConnectionError "no response")
        | second :: _ => statement_result second
        end
      else statement_result first
  end.


(** The checks of [wise_webhook] that come before the schema version: the
    X-Signature header is there and decodes, the body is JSON and not
    null, and the signature verifies. *)
Definition authentic (P : Platform) (request : Request) : bool :=
  match header_get (request_headers request) "X-Signature" with
  | Raise _ => false
  | Ok signature =>
      match b64decode P signature, request_json request with
      | Ok _, Ok body =>
          negb (is_none body)
          && verify_signature P (request_data request) signature
      | _, _ => false
      end
  end.

(** The rows, the session, the accounts, the locks, the network and the
    dispatch record of two worlds agree: they differ in the log at most. *)
Definition untouched (w w' : World) : Prop :=
  bank_accounts w' = bank_accounts w /\
  bank_transactions w' = bank_transactions w /\
  session_new w' = session_new w /\
  row_locks w' = row_locks w /\
  clock w' = clock w /\
  network w' = network w /\
  sent w' = sent w /\
  dispatched w' = dispatched w.

(** The world in which a handler starts: the one the request met, with
    the receiver's log line and the event type recorded as dispatched. *)
Definition at_dispatch (event_type : pyval) (w w1 : World) : Prop :=
  bank_accounts w1 = bank_accounts w /\
  bank_transactions w1 = bank_transactions w /\
  session_new w1 = session_new w /\
  row_locks w1 = row_locks w /\
  clock w1 = clock w /\
  network w1 = network w /\
  sent w1 = sent w /\
  dispatched w1 = dispatched w ++ [event_type].

(** That world, as [wise_webhook] makes it: the log line of its first
    statement, then the dispatch record. *)
Definition dispatch_world (event_type : pyval) (w : World) : World :=
  snd (record_dispatch event_type
         (snd (logger INFO "Received Wise webhook request: data=%r headers=%r" w))).

(** The row [t] is what the loop makes of the statement entry [e] for the
    account [b]: the entry is a CREDIT, the row carries its key and its
    amount, and the account's id. *)
Definition row_of_entry (b : BankAccount) (e : pyval) (t : BankTransaction) : Prop :=
  credit_key e = Ok (Some (posted t, type t, payee t)) /\
  account_id t = id b /\
  exists amt, py_getattr e "amount" = Ok amt /\ py_getattr amt "value" = Ok (amount t).

(** No row of [added] has a key that matches one of [rows] or one of the
    rows of [added] before it. *)
Fixpoint fresh_rows (rows added : list BankTransaction) : Prop :=
  match added with
  | [] => True
  | t :: rest =>
      existsb (transaction_matches (account_id t) (posted t) (type t) (payee t)) rows
        = false /\
      fresh_rows (rows ++ [t]) rest
  end.

(** [statement.transactions], as the loop iterates over it. *)
Definition statement_entries (statement : pyval) : result (list pyval) :=
  let* transactions := py_getattr statement "transactions" in
  py_iter transactions.

(** Two worlds that differ in the rows of the session at most. *)
Definition only_session (w w' : World) : Prop :=
  bank_accounts w' = bank_accounts w /\
  bank_transactions w' = bank_transactions w /\
  row_locks w' = row_locks w /\
  clock w' = clock w /\
  network w' = network w /\
  sent w' = sent w /\
  log w' = log w /\
  dispatched w' = dispatched w.

(** The tables, the session and the dispatch record of two worlds agree. *)
Definition same_tables (w w' : World) : Prop :=
  bank_accounts w' = bank_accounts w /\
  bank_transactions w' = bank_transactions w /\
  session_new w' = session_new w /\
  dispatched w' = dispatched w.

(** The profile [p] carries the type "business". *)
Definition is_business (p : pyval) : bool :=
  match py_getattr p "type" with
  | Ok ty => py_eq_str ty "business"
  | Raise _ => false
  end.

(** The profile id the configuration names, [None] when it names none. *)
Definition configured_profile (P : Platform) : pyval :=
  match config P !! "TRANSFERWISE_PROFILE_ID" with
  | Some v => v
  | None => PyNone
  end.

(** A balance that the loop of [_collect_bank_accounts] passes over: it
    has no bank details, or empty ones, or bank details with no bank
    address or an empty one. *)
Definition lacks_bank_details (account : pyval) : Prop :=
  match py_getattr account "bankDetails" with
  | Raise _ => True
  | Ok bankDetails =>
      py_truthy bankDetails = false \/
      match py_getattr bankDetails "bankAddress" with
      | Raise _ => True
      | Ok bankAddress => py_truthy bankAddress = false
      end
  end.

(** The string has no space in it. *)
Fixpoint no_space (s : string) : bool :=
  match s with
  | EmptyString => true
  | String c r => negb (Ascii.eqb c " ") && no_space r
  end.

(** * Sample inputs *)

Module Sample.

(** A balance of a borderless account, as the provider's client gives it. *)
Definition balance (cur code number : string) : pyval :=
  PyDict [("currency", PyStr cur);
          ("bankDetails",
            PyDict [("currency", PyStr cur);
                    ("bankCode", PyStr code);
                    ("accountNumber", PyStr number);
                    ("bankName", PyStr "Wise");
                    ("swift", PyStr "TRWIGB2L");
                    ("bankAddress",
                      PyDict [("addressFirstLine", PyStr "56 Shoreditch High Street");
                              ("city", PyStr "London");
                              ("postCode", PyStr "E1 6JJ");
                              ("country", PyStr "United Kingdom")])])].

Definition iban_balance : pyval := balance "GBP" "23-14-70" "GB33 TRWI 2314 7012 3456 78".
Definition plain_balance : pyval := balance "GBP" "23-14-70" "12345678".
Definition euro_balance : pyval := balance "EUR" "TRWIBEB1XXX" "BE12 3456 7890 1234".

Definition borderless_account : pyval :=
  PyDict [("id", PyInt 77);
          ("balances", PyList [iban_balance; plain_balance; euro_balance])].

(** [str()] on the values an identifier or a currency takes. *)
Definition str_of (v : pyval) : string :=
  match v with
  | PyStr s => s
  | PyInt z => NilZero.string_of_int (Z.to_int z)
  | PyBool true => "True"
  | PyBool false => "False"
  | _ => "None"
  end.

(** A platform: the configuration [cfg], the outcome [me] of the
    current-user call, the profile listing, the borderless accounts of a
    profile and its subscriptions.  Signing is a stand-in that keeps the
    key, the padding, the digest and the message apart. *)
Definition platform (cfg : gmap string pyval) (flush : bool) (me : result pyval)
    (profiles : result (list pyval))
    (accounts : pyval -> result (list pyval))
    (subscriptions : pyval -> result pyval) : Platform :=
  {| PrivateKey := string;
     config := cfg;
     autoflush := flush;
     py_str := str_of;
     isoformat := fun t => NilZero.string_of_int (Z.to_int t);
     b64decode := fun s => if String.eqb s "" then Raise (Exn ValueError "padding") else Ok s;
     b64encode := fun s => ("b64:" ++ s)%string;
     verify_signature := fun _ sig => String.eqb sig "c2lnbmVk";
     open_read := fun path => Ok (str_of path);
     load_pem_private_key := fun pem => Ok pem;
     sign := fun key msg pad h =>
       match pad, h with
       | PKCS1v15, SHA256 => Ok ("pkcs1v15-sha256:" ++ key ++ ":" ++ msg)%string
       | _, _ => Ok ("other:" ++ key ++ ":" ++ msg)%string
       end;
     client_domain := "https://api.transferwise.com";
     client_required_headers := {[ "Authorization" := "Bearer token" ]};
     users_me := me;
     profiles_list := fun _ => profiles;
     borderless_accounts_list := accounts;
     subscriptions_list := subscriptions |}.

Definition token36 : string := "0123456789abcdef0123456789abcdef0123".

Definition live_config : gmap string pyval :=
  <["TRANSFERWISE_ENVIRONMENT" := PyStr "live"]>
    (<["TRANSFERWISE_API_TOKEN" := PyStr token36]>
       (<["TRANSFERWISE_PRIVATE_KEY" := PyStr "/etc/wise/private.pem"]> ∅)).

Definition personal_profile : pyval :=
  PyDict [("id", PyInt 11); ("type", PyStr "personal")].

Definition business_profile (i : Z) : pyval :=
  PyDict [("id", PyInt i); ("type", PyStr "business")].

(** No profile id configured, and the listing holds no business profile. *)
Definition no_business : Platform :=
  platform live_config true (Ok PyNone) (Ok [personal_profile])
    (fun _ => Ok [borderless_account]) (fun _ => Ok (PyList [])).

(** The one business profile the provider lists carries the id 0. *)
Definition zero_profile : Platform :=
  platform live_config true (Ok PyNone) (Ok [business_profile 0])
    (fun _ => Ok [borderless_account])
    (fun _ => Ok (PyList [PyDict [("name", PyStr "balances#credit")]])).

Definition world (accounts : list BankAccount) (rows : list BankTransaction)
    (net : list Response) : World :=
  {| bank_accounts := accounts;
     bank_transactions := rows;
     session_new := [];
     row_locks := [];
     clock := 1704672000000000%Z;
     network := net;
     sent := [];
     log := [];
     dispatched := [] |}.

(** A balances#credit event; [resource] is the content of data.resource
    and [extra] the other fields of data. *)
Definition credit_event (resource extra : list (string * pyval)) : pyval :=
  PyDict [("data", PyDict (("resource", PyDict resource) :: extra));
          ("subscription_id", PyStr "01234567-89ab-cdef-0123-456789abcdef");
          ("event_type", PyStr "balances#credit");
          ("schema_version", PyStr "2.0.0")].

(** The event sent when a webhook connection is configured. *)
Definition sentinel_event : pyval :=
  credit_event [("id", PyInt 0); ("profile_id", PyInt 0)]
               [("currency", PyStr "GBP")].

(** A group id of 0 in a payload that names no profile. *)
Definition sentinel_without_profile : pyval :=
  credit_event [("id", PyInt 0)] [("currency", PyStr "GBP")].

Definition credit_of (gid : Z) (cur : string) : pyval :=
  credit_event [("id", PyInt gid); ("profile_id", PyInt 42)]
               [("currency", PyStr cur)].

(** A credit for group 77 in EUR in a payload that names no profile. *)
Definition credit_without_profile : pyval :=
  credit_event [("id", PyInt 77)] [("currency", PyStr "EUR")].

(** The stored account that discovery made of [plain_balance], activated. *)
Definition gbp_account : BankAccount :=
  {| id := Some 1%Z;
     sort_code := PyStr "23-14-70";
     acct_id := PyStr "12345678";
     currency := PyStr "GBP";
     active := true;
     institution := PyStr "Wise";
     address := "56 Shoreditch High Street, London E1 6JJ, United Kingdom";
     swift := PyStr "TRWIGB2L";
     iban := PyNone;
     borderless_account_id := PyInt 77 |}.

(** The provider's demand for a signed challenge. *)
Definition rejected_response : Response :=
  {| status_code := 403;
     headers := [("x-2fa-approval-result", "REJECTED");
                 ("x-2fa-approval", "be2f6579-9426-480b-9cb7-d8f1116cc8b9")];
     json := Ok (PyDict []) |}.

Definition approved_response (body : result pyval) : Response :=
  {| status_code := 200;
     headers := [("X-2FA-Approval-Result", "APPROVED")];
     json := body |}.

Definition entry (kind date detail ref : string) (value : pyval) : pyval :=
  PyDict [("type", PyStr kind);
          ("date", PyStr date);
          ("amount", PyDict [("value", value); ("currency", PyStr "GBP")]);
          ("details", PyDict [("type", PyStr detail);
                              ("paymentReference", PyStr ref)])].

(** A statement with the same credit twice, a debit and a second credit. *)
Definition statement : pyval :=
  PyDict [("transactions",
            PyList [entry "CREDIT" "2024-01-01" "TRANSFER" "INV123" (PyInt 50);
                    entry "DEBIT" "2024-01-02" "CARD" "" (PyInt 7);
                    entry "CREDIT" "2024-01-01" "TRANSFER" "INV123" (PyInt 50);
                    entry "CREDIT" "2024-01-03" "DEPOSIT" "INV124" (PyInt 20)])].

(** A signed delivery of [body]. *)
Definition delivery (body : result pyval) : Request :=
  {| request_data := "{...}";
     request_headers := [("Content-Type", "application/json");
                         ("X-Signature", "c2lnbmVk")];
     request_json := body |}.

(** A handler that would leave a trace in every part of the world. *)
Definition noisy_handler : handler :=
  fun _ _ w =>
    (Ok ("", 204%Z),
     {| bank_accounts := [];
        bank_transactions := [];
        session_new := [];
        row_locks := [None];
        clock := 0%Z;
        network := [];
        sent := [{| url := "x"; params := []; out_headers := ∅ |}];
        log := [(ERROR, "handled")];
        dispatched := dispatched w |}).

(** A statement whose second credit lacks its details. *)
Definition broken_statement : pyval :=
  PyDict [("transactions",
            PyList [entry "CREDIT" "2024-01-01" "TRANSFER" "INV123" (PyInt 50);
                    PyDict [("type", PyStr "CREDIT");
                            ("date", PyStr "2024-01-02");
                            ("amount", PyDict [("value", PyInt 9)])]])].

(** A credit event without the field [missing] of data.resource, or
    without the currency. *)
Definition credit_without (missing : string) : pyval :=
  credit_event
    (List.filter (fun kv => negb (String.eqb (fst kv) missing))
       [("id", PyInt 77); ("profile_id", PyInt 42)])
    (List.filter (fun kv => negb (String.eqb (fst kv) missing))
       [("currency", PyStr "GBP")]).

End Sample.

(** * Properties *)

(** ** Account discovery *)

Lemma has_bank_details_true account :
  has_bank_details account = Ok true ->
  exists bankDetails bankAddress,
    py_getattr account "bankDetails" = Ok bankDetails /\
    py_truthy bankDetails = true /\
    py_getattr bankDetails "bankAddress" = Ok bankAddress /\
    py_truthy bankAddress = true.
Proof.
  unfold has_bank_details. intros H.
  destruct (py_getattr account "bankDetails") as [bd|] eqn:Ebd; simpl in H; [|discriminate].
  destruct (py_truthy bd) eqn:Tbd; simpl in H; [|discriminate].
  destruct (py_getattr bd "bankAddress") as [ba|] eqn:Eba; simpl in H; [|discriminate].
  destruct (py_truthy ba) eqn:Tba; simpl in H; [|discriminate].
  exists bd, ba. auto.
Qed.

(** What a yielded account is made of. *)
Lemma collect_balance_yields borderless_account account acct :
  collect_balance borderless_account account = Ok (Some acct) ->
  exists bankDetails bankAddress routing,
    py_getattr account "bankDetails" = Ok bankDetails /\
    py_getattr bankDetails "bankAddress" = Ok bankAddress /\
    routing_fields bankDetails = Ok routing /\
    bank_address bankAddress = Ok (address acct) /\
    sort_code acct = fst routing /\
    acct_id acct = snd routing /\
    py_getattr bankDetails "currency" = Ok (currency acct) /\
    py_getattr bankDetails "bankName" = Ok (institution acct) /\
    py_getattr borderless_account "id" = Ok (borderless_account_id acct) /\
    active acct = false.
Proof.
  unfold collect_balance. intros H.
  destruct (has_bank_details account) as [[|]|[[] ?]] eqn:G; try discriminate H.
  destruct (has_bank_details_true _ G) as (bd & ba & Ebd & _ & Eba & _).
  rewrite Ebd in H; simpl in H. rewrite Eba in H; simpl in H.
  destruct (bank_address ba) as [addr|] eqn:Eaddr; simpl in H; [|discriminate].
  destruct (routing_fields bd) as [routing|] eqn:Er; simpl in H; [|discriminate].
  destruct (py_getattr bd "currency") as [cur|] eqn:Ecur; simpl in H; [|discriminate].
  destruct (py_getattr bd "bankName") as [name|] eqn:Ename; simpl in H; [|discriminate].
  destruct (py_get bd "swift" PyNone) as [sw|] eqn:Esw; simpl in H; [|discriminate].
  destruct (py_get bd "iban" PyNone) as [ib|] eqn:Eib; simpl in H; [|discriminate].
  destruct (py_getattr borderless_account "id") as [bid|] eqn:Ebid; simpl in H; [|discriminate].
  injection H as <-. exists bd, ba, routing. simpl. repeat split; auto.
Qed.

Lemma py_eq_str_true v s : py_eq_str v s = true <-> v = PyStr s.
Proof.
  destruct v; simpl; try (split; [discriminate | intros [=]]).
  rewrite String.eqb_eq. split; [intros -> | intros [=]]; congruence.
Qed.

Lemma routing_fields_gbp bankDetails routing :
  py_getattr bankDetails "currency" = Ok (PyStr "GBP") ->
  routing_fields bankDetails = Ok routing ->
  exists raw,
    py_getattr bankDetails "bankCode" = Ok (fst routing) /\
    py_getattr bankDetails "accountNumber" = Ok raw /\
    (py_len raw = Ok 8 -> snd routing = raw) /\
    (forall s, raw = PyStr s -> String.length s <> 8 ->
               snd routing = PyStr (str_last 8 (str_replace " " "" s))).
Proof.
  unfold routing_fields. intros -> H. simpl in H.
  destruct (py_getattr bankDetails "bankCode") as [code|] eqn:Ecode; simpl in H; [|discriminate].
  destruct (py_getattr bankDetails "accountNumber") as [raw|] eqn:Eraw; simpl in H; [|discriminate].
  destruct (py_len raw) as [n|] eqn:En; simpl in H; [|discriminate].
  exists raw. destruct (Nat.eqb n 8) eqn:E8.
  - injection H as <-. apply Nat.eqb_eq in E8. subst n. simpl. repeat split; auto.
    intros s -> Hs. simpl in En. congruence.
  - apply Nat.eqb_neq in E8.
    destruct raw; try discriminate H. injection H as <-. simpl. repeat split; auto.
    + intros Hl. simpl in En. rewrite Hl in En. injection En as En. congruence.
    + intros s0 [= ->] _. reflexivity.
Qed.

Lemma routing_fields_other bankDetails cur :
  py_getattr bankDetails "currency" = Ok cur ->
  cur <> PyStr "GBP" ->
  routing_fields bankDetails = Ok (PyNone, PyNone).
Proof.
  unfold routing_fields. intros -> Hne. simpl.
  destruct (py_eq_str cur "GBP") eqn:E; [|reflexivity].
  apply py_eq_str_true in E. contradiction.
Qed.

(** A balance with bank details, a bank address made of strings and a
    bank name is yielded. *)
Lemma collect_balance_total borderless_account account bankDetails bankAddress
    addr routing name bid :
  py_getattr account "bankDetails" = Ok bankDetails ->
  py_truthy bankDetails = true ->
  py_getattr bankDetails "bankAddress" = Ok bankAddress ->
  py_truthy bankAddress = true ->
  bank_address bankAddress = Ok addr ->
  routing_fields bankDetails = Ok routing ->
  py_getattr bankDetails "bankName" = Ok name ->
  py_getattr borderless_account "id" = Ok bid ->
  exists acct, collect_balance borderless_account account = Ok (Some acct).
Proof.
  intros Ebd Tbd Eba Tba Eaddr Er Ename Ebid.
  unfold collect_balance, has_bank_details.
  rewrite Ebd; simpl. rewrite Tbd; simpl. rewrite Eba; simpl. rewrite Tba; simpl.
  rewrite Eaddr; simpl. rewrite Er; simpl.
  assert (exists cur, py_getattr bankDetails "currency" = Ok cur) as [cur Ecur].
  { unfold routing_fields in Er.
    destruct (py_getattr bankDetails "currency"); [eauto | discriminate]. }
  rewrite Ecur; simpl. rewrite Ename; simpl.
  destruct bankDetails; try discriminate Eba. simpl. rewrite Ebid. simpl. eauto.
Qed.

Lemma routing_fields_gbp_str bankDetails code s :
  py_getattr bankDetails "currency" = Ok (PyStr "GBP") ->
  py_getattr bankDetails "bankCode" = Ok code ->
  py_getattr bankDetails "accountNumber" = Ok (PyStr s) ->
  routing_fields bankDetails =
    Ok (code, PyStr (if Nat.eqb (String.length s) 8 then s
                     else str_last 8 (str_replace " " "" s))).
Proof.
  unfold routing_fields. intros -> -> ->. simpl.
  destruct (Nat.eqb (String.length s) 8); reflexivity.
Qed.

(** Every account [_collect_bank_accounts] yields comes from one of the
    balances of the borderless account. *)
Lemma collect_balances_In borderless_account accounts acct :
  In acct (fst (collect_balances borderless_account accounts)) ->
  exists account,
    In account accounts /\
    collect_balance borderless_account account = Ok (Some acct).
Proof.
  induction accounts as [|a rest IH]; simpl; [contradiction|].
  destruct (collect_balance borderless_account a) as [[b|]|] eqn:E; simpl.
  - destruct (collect_balances borderless_account rest) as [bs e]. simpl in *.
    intros [<-|Hin]; [eauto|]. destruct (IH Hin) as (x & ? & ?). eauto.
  - intros Hin. destruct (IH Hin) as (x & ? & ?). eauto.
  - contradiction.
Qed.

(** The run over a list of balances: with no exception before it, a
    yielded balance stands between what the balances before it and those
    after it give. *)
Lemma collect_balances_app borderless_account before account after acct :
  Forall (fun a => is_raise (collect_balance borderless_account a) = false) before ->
  collect_balance borderless_account account = Ok (Some acct) ->
  fst (collect_balances borderless_account (before ++ account :: after))
  = fst (collect_balances borderless_account before)
    ++ acct :: fst (collect_balances borderless_account after).
Proof.
  intros Hb Hy. induction Hb as [|a rest Ha _ IH]; simpl.
  - rewrite Hy. destruct (collect_balances borderless_account after). reflexivity.
  - destruct (collect_balance borderless_account a) as [[b|]|] eqn:E; simpl in *.
    + destruct (collect_balances borderless_account (rest ++ account :: after)).
      destruct (collect_balances borderless_account rest).
      simpl in *. rewrite IH. reflexivity.
    + exact IH.
    + discriminate Ha.
Qed.

(** C2. Account discovery over a borderless account: every account it
    yields is made of one of the balances, and when that balance's bank
    details are in GBP its sort code is the provider's bank-code field and
    its account number is the raw account-number value when that value has
    length 8, and otherwise the last 8 characters of the raw value with its
    spaces removed.  A GBP balance whose address, bank code, account number
    and bank name are there is yielded with these fields, at its place among
    the accounts of the other balances, when no balance before it raises. *)
Theorem gbp_sort_code_and_account_number
    (borderless_account balances : pyval) (accounts : list pyval) :
  py_getattr borderless_account "balances" = Ok balances ->
  py_iter balances = Ok accounts ->
  (forall acct,
     In acct (fst (_collect_bank_accounts borderless_account)) ->
     exists account,
       In account accounts /\
       collect_balance borderless_account account = Ok (Some acct) /\
       forall bankDetails,
         py_getattr account "bankDetails" = Ok bankDetails ->
         py_getattr bankDetails "currency" = Ok (PyStr "GBP") ->
         exists raw,
           py_getattr bankDetails "bankCode" = Ok (sort_code acct) /\
           py_getattr bankDetails "accountNumber" = Ok raw /\
           (py_len raw = Ok 8 -> acct_id acct = raw) /\
           (forall s, raw = PyStr s -> String.length s <> 8 ->
              acct_id acct = PyStr (str_last 8 (str_replace " " "" s))))
  /\
  (forall before account after bankDetails bankAddress addr code s name bid,
     accounts = before ++ account :: after ->
     Forall (fun a => is_raise (collect_balance borderless_account a) = false)
            before ->
     py_getattr account "bankDetails" = Ok bankDetails ->
     py_getattr bankDetails "currency" = Ok (PyStr "GBP") ->
     py_truthy bankDetails = true ->
     py_getattr bankDetails "bankAddress" = Ok bankAddress ->
     py_truthy bankAddress = true ->
     bank_address bankAddress = Ok addr ->
     py_getattr bankDetails "bankCode" = Ok code ->
     py_getattr bankDetails "accountNumber" = Ok (PyStr s) ->
     py_getattr bankDetails "bankName" = Ok name ->
     py_getattr borderless_account "id" = Ok bid ->
     exists acct,
       fst (_collect_bank_accounts borderless_account)
       = fst (collect_balances borderless_account before)
         ++ acct :: fst (collect_balances borderless_account after) /\
       sort_code acct = code /\
       acct_id acct = PyStr (if Nat.eqb (String.length s) 8 then s
                             else str_last 8 (str_replace " " "" s)) /\
       currency acct = PyStr "GBP").
Proof.
  intros Hbal Hiter.
  assert (Hrun : _collect_bank_accounts borderless_account
                 = collect_balances borderless_account accounts).
  { unfold _collect_bank_accounts. rewrite Hbal, Hiter. reflexivity. }
  split.
  - intros acct Hin. rewrite Hrun in Hin.
    destruct (collect_balances_In _ _ _ Hin) as (account & Hacc & Hy).
    exists account. split; [exact Hacc|]. split; [exact Hy|].
    intros bankDetails Ebd Ecur.
    destruct (collect_balance_yields _ _ _ Hy)
      as (bd & ba & routing & Ebd' & _ & Er & _ & Hsc & Hid & _).
    rewrite Ebd in Ebd'. injection Ebd' as <-.
    destruct (routing_fields_gbp _ _ Ecur Er) as (raw & Hcode & Hraw & H8 & Hn8).
    exists raw. rewrite Hsc, Hid. auto.
  - intros before account after bankDetails ba addr code s name bid
           -> Hbefore Ebd Ecur Tbd Eba Tba Eaddr Ecode Eraw Ename Ebid.
    pose proof (routing_fields_gbp_str _ _ _ Ecur Ecode Eraw) as Er.
    destruct (collect_balance_total _ _ _ _ _ _ _ _
                Ebd Tbd Eba Tba Eaddr Er Ename Ebid) as [acct Hy].
    exists acct. split.
    + rewrite Hrun. apply collect_balances_app; assumption.
    + destruct (collect_balance_yields _ _ _ Hy)
        as (bd & ba' & routing & Ebd' & _ & Er' & _ & Hsc & Hid & Hcur & _).
      rewrite Ebd in Ebd'. injection Ebd' as <-.
      rewrite Er in Er'. injection Er' as <-.
      rewrite Ecur in Hcur. injection Hcur as Hcur.
      rewrite Hsc, Hid. simpl. auto.
Qed.

Lemma gbp_sort_code_and_account_number_witness :
  exists acct later,
    fst (_collect_bank_accounts Sample.borderless_account) = acct :: later /\
    sort_code acct = PyStr "23-14-70" /\
    acct_id acct = PyStr "12345678" /\
    currency acct = PyStr "GBP".
Proof.
  destruct (gbp_sort_code_and_account_number Sample.borderless_account
              (PyList [Sample.iban_balance; Sample.plain_balance; Sample.euro_balance])
              [Sample.iban_balance; Sample.plain_balance; Sample.euro_balance]
              eq_refl eq_refl) as [_ Hyield].
  destruct (Hyield [] Sample.iban_balance
              [Sample.plain_balance; Sample.euro_balance]
              (PyDict [("currency", PyStr "GBP");
                       ("bankCode", PyStr "23-14-70");
                       ("accountNumber", PyStr "GB33 TRWI 2314 7012 3456 78");
                       ("bankName", PyStr "Wise");
                       ("swift", PyStr "TRWIGB2L");
                       ("bankAddress",
                         PyDict [("addressFirstLine", PyStr "56 Shoreditch High Street");
                                 ("city", PyStr "London");
                                 ("postCode", PyStr "E1 6JJ");
                                 ("country", PyStr "United Kingdom")])])
              (PyDict [("addressFirstLine", PyStr "56 Shoreditch High Street");
                       ("city", PyStr "London");
                       ("postCode", PyStr "E1 6JJ");
                       ("country", PyStr "United Kingdom")])
              "56 Shoreditch High Street, London E1 6JJ, United Kingdom"
              (PyStr "23-14-70") "GB33 TRWI 2314 7012 3456 78" (PyStr "Wise")
              (PyInt 77)
              eq_refl (List.Forall_nil _) eq_refl eq_refl eq_refl eq_refl eq_refl
              eq_refl eq_refl eq_refl eq_refl eq_refl)
    as (acct & Hrun & Hsc & Hid & Hcur).
  exists acct, (fst (collect_balances Sample.borderless_account
                       [Sample.plain_balance; Sample.euro_balance])).
  split; [exact Hrun|]. split; [exact Hsc|]. split; [exact Hid|exact Hcur].
Defined.

(** The accounts of a borderless account whose second balance carries an
    account number of length 8 and whose first carries an IBAN: both come
    out with the same 8 characters. *)
Example gbp_balances_in_discovery :
  map (fun b => (sort_code b, acct_id b, currency b))
      (fst (_collect_bank_accounts Sample.borderless_account))
  = [(PyStr "23-14-70", PyStr "12345678", PyStr "GBP");
     (PyStr "23-14-70", PyStr "12345678", PyStr "GBP");
     (PyNone, PyNone, PyStr "EUR")].
Proof. reflexivity. Qed.

(** C7. In account discovery, a balance with bank details whose currency
    is not GBP is yielded with the sort code and the account number unset,
    whatever its bank-code field holds; it is yielded whenever its address
    and bank name are there. *)
Theorem non_gbp_routing_fields_unset
    (borderless_account account bankDetails cur : pyval) :
  py_getattr account "bankDetails" = Ok bankDetails ->
  py_getattr bankDetails "currency" = Ok cur ->
  cur <> PyStr "GBP" ->
  (forall acct,
     collect_balance borderless_account account = Ok (Some acct) ->
     sort_code acct = PyNone /\ acct_id acct = PyNone)
  /\
  (forall bankAddress addr name bid,
     py_truthy bankDetails = true ->
     py_getattr bankDetails "bankAddress" = Ok bankAddress ->
     py_truthy bankAddress = true ->
     bank_address bankAddress = Ok addr ->
     py_getattr bankDetails "bankName" = Ok name ->
     py_getattr borderless_account "id" = Ok bid ->
     exists acct, collect_balance borderless_account account = Ok (Some acct)).
Proof.
  intros Ebd Ecur Hne. split.
  - intros acct Hy.
    destruct (collect_balance_yields _ _ _ Hy)
      as (bd & ba & routing & Ebd' & _ & Er & _ & Hsc & Hid & _).
    rewrite Ebd in Ebd'. injection Ebd' as <-.
    rewrite (routing_fields_other _ _ Ecur Hne) in Er. injection Er as <-.
    rewrite Hsc, Hid. auto.
  - intros ba addr name bid Tbd Eba Tba Eaddr Ename Ebid.
    eapply collect_balance_total; eauto.
    eapply routing_fields_other; eauto.
Qed.

Lemma non_gbp_routing_fields_unset_witness :
  exists acct,
    collect_balance Sample.borderless_account Sample.euro_balance = Ok (Some acct) /\
    sort_code acct = PyNone /\ acct_id acct = PyNone.
Proof.
  destruct (non_gbp_routing_fields_unset Sample.borderless_account
              Sample.euro_balance
              (PyDict [("currency", PyStr "EUR");
                       ("bankCode", PyStr "TRWIBEB1XXX");
                       ("accountNumber", PyStr "BE12 3456 7890 1234");
                       ("bankName", PyStr "Wise");
                       ("swift", PyStr "TRWIGB2L");
                       ("bankAddress",
                         PyDict [("addressFirstLine", PyStr "56 Shoreditch High Street");
                                 ("city", PyStr "London");
                                 ("postCode", PyStr "E1 6JJ");
                                 ("country", PyStr "United Kingdom")])])
              (PyStr "EUR") eq_refl eq_refl ltac:(discriminate)) as [Hsound _].
  eexists. split; [reflexivity|]. apply Hsound. reflexivity.
Defined.

(** ** Business profile *)

(** C9. With no explicit business-profile id configured and no profile of
    type "business" left by the filter over the provider's listing,
    profile resolution ends in the IndexError of [profiles[0]]; it returns
    no id and no sentinel. *)
Theorem no_business_profile_is_index_error (P : Platform) (listed : list pyval) :
  (forall v, config P !! "TRANSFERWISE_PROFILE_ID" = Some v -> py_truthy v = false) ->
  profiles_list P "business" = Ok listed ->
  filter_business listed = Ok [] ->
  wise_business_profile P = Raise (Exn IndexError "list index out of range").
Proof.
  intros Hcfg Hlist Hfilter. unfold wise_business_profile.
  destruct (config P !! "TRANSFERWISE_PROFILE_ID") as [v|] eqn:E.
  - rewrite (Hcfg v eq_refl). rewrite Hlist. simpl. rewrite Hfilter. reflexivity.
  - simpl. rewrite Hlist. simpl. rewrite Hfilter. reflexivity.
Qed.

Lemma no_business_profile_is_index_error_witness :
  wise_business_profile Sample.no_business
  = Raise (Exn IndexError "list index out of range").
Proof.
  apply (no_business_profile_is_index_error Sample.no_business [Sample.personal_profile]).
  - intros v Hv. vm_compute in Hv. discriminate Hv.
  - reflexivity.
  - reflexivity.
Defined.

(** A listing whose entries all carry a type other than "business" is
    filtered down to nothing. *)
Lemma filter_business_none listed :
  Forall (fun p => exists ty, py_getattr p "type" = Ok ty /\ ty <> PyStr "business") listed ->
  filter_business listed = Ok [].
Proof.
  induction 1 as [|p rest (ty & Ety & Hne) _ IH]; simpl; [reflexivity|].
  rewrite Ety. simpl. rewrite IH. simpl.
  destruct (py_eq_str ty "business") eqn:E; [|reflexivity].
  apply py_eq_str_true in E. contradiction.
Qed.

(** ** Health check *)

(** C10. With the environment set to "sandbox" or "live", the health check
    runs its token probe on the configured API token string, an absent
    token counting as the empty string, and the probe looks at the length
    only.  With a length other than 36 the health check returns its report
    there: the environment entry and the failed token entry.  With length
    36 the token entry is a success and the health check goes on to the
    connection probe: any report it returns holds the three entries in
    this order. *)
Theorem token_probe_checks_length_only (P : Platform) (env token : string) :
  config P !! "TRANSFERWISE_ENVIRONMENT" = Some (PyStr env) ->
  env = "sandbox" \/ env = "live" ->
  config P !! "TRANSFERWISE_API_TOKEN" = Some (PyStr token) \/
  (config P !! "TRANSFERWISE_API_TOKEN" = None /\ token = "") ->
  probe_token P =
    Ok (Nat.eqb (String.length token) 36,
        if Nat.eqb (String.length token) 36
        then "Access token set" else "Access token not set")
  /\
  (String.length token <> 36%nat ->
     wise_validate P
     = Ok [(true, if String.eqb env "sandbox"
                  then "Sandbox environment being used"
                  else "Live environment being used");
           (false, "Access token not set")])
  /\
  (String.length token = 36%nat ->
     (exists e, wise_validate P = Raise e) \/
     (exists rest,
        wise_validate P
        = Ok ((true, if String.eqb env "sandbox"
                     then "Sandbox environment being used"
                     else "Live environment being used")
                :: (true, "Access token set")
                :: probe_connection P :: rest))).
Proof.
  intros Henv Hknown Htok.
  assert (Hprobe : probe_token P =
            Ok (Nat.eqb (String.length token) 36,
                if Nat.eqb (String.length token) 36
                then "Access token set" else "Access token not set")).
  { unfold probe_token.
    destruct Htok as [-> | [-> ->]]; simpl; [|reflexivity].
    destruct (Nat.eqb (String.length token) 36); reflexivity. }
  assert (Hpe : probe_environment P
                = (true, if String.eqb env "sandbox"
                         then "Sandbox environment being used"
                         else "Live environment being used")).
  { unfold probe_environment. rewrite Henv.
    destruct Hknown as [-> | ->]; reflexivity. }
  split; [exact Hprobe|]. split.
  - intros Hlen. apply Nat.eqb_neq in Hlen. rewrite Hlen in Hprobe.
    unfold wise_validate. rewrite Hpe, Hprobe. reflexivity.
  - intros Hlen. apply Nat.eqb_eq in Hlen. rewrite Hlen in Hprobe.
    unfold wise_validate. rewrite Hpe, Hprobe. simpl.
    destruct (fst (probe_connection P)); simpl; [|right; eexists; reflexivity].
    destruct (wise_business_profile P) as [bp|e]; simpl; [|left; eauto].
    destruct (subscriptions_list P bp) as [hooks|e]; simpl; [|left; eauto].
    right. eexists. reflexivity.
Qed.

Lemma token_probe_checks_length_only_witness :
  wise_validate
    (Sample.platform
       (<["TRANSFERWISE_ENVIRONMENT" := PyStr "live"]>
          (<["TRANSFERWISE_API_TOKEN" := PyStr "secret"]> ∅))
       true (Ok PyNone) (Ok []) (fun _ => Ok []) (fun _ => Ok PyNone))
  = Ok [(true, "Live environment being used"); (false, "Access token not set")].
Proof.
  assert (Henv : config
            (Sample.platform
               (<["TRANSFERWISE_ENVIRONMENT" := PyStr "live"]>
                  (<["TRANSFERWISE_API_TOKEN" := PyStr "secret"]> ∅))
               true (Ok PyNone) (Ok []) (fun _ => Ok []) (fun _ => Ok PyNone))
            !! "TRANSFERWISE_ENVIRONMENT" = Some (PyStr "live")) by reflexivity.
  assert (Htok : config
            (Sample.platform
               (<["TRANSFERWISE_ENVIRONMENT" := PyStr "live"]>
                  (<["TRANSFERWISE_API_TOKEN" := PyStr "secret"]> ∅))
               true (Ok PyNone) (Ok []) (fun _ => Ok []) (fun _ => Ok PyNone))
            !! "TRANSFERWISE_API_TOKEN" = Some (PyStr "secret")) by reflexivity.
  destruct (token_probe_checks_length_only _ "live" "secret" Henv
              (or_intror eq_refl) (or_introl Htok)) as (_ & Hshort & _).
  apply Hshort. simpl. lia.
Defined.

(** A token of 36 characters: the report goes on past the token entry. *)
Example token_probe_passes :
  wise_validate
    (Sample.platform Sample.live_config true
       (Raise (Exn ConnectionError "unreachable")) (Ok []) (fun _ => Ok [])
       (fun _ => Ok PyNone))
  = Ok [(true, "Live environment being used");
        (true, "Access token set");
        (false, "Unable to connect to Wise: unreachable")].
Proof. reflexivity. Qed.

(** A token of any other length fails, and so does an absent one. *)
Example token_probe_short :
  probe_token (Sample.platform (<["TRANSFERWISE_API_TOKEN" := PyStr "secret"]> ∅)
                 true (Ok PyNone) (Ok []) (fun _ => Ok []) (fun _ => Ok PyNone))
  = Ok (false, "Access token not set").
Proof. reflexivity. Qed.

Example token_probe_absent :
  probe_token (Sample.platform ∅ true (Ok PyNone) (Ok []) (fun _ => Ok [])
                 (fun _ => Ok PyNone))
  = Ok (false, "Access token not set").
Proof. reflexivity. Qed.

(** The first three probes end the report where they fail. *)
Lemma wise_validate_stops_at_environment P :
  fst (probe_environment P) = false ->
  wise_validate P = Ok [probe_environment P].
Proof. unfold wise_validate. intros ->. reflexivity. Qed.

Lemma wise_validate_stops_at_token P msg :
  fst (probe_environment P) = true ->
  probe_token P = Ok (false, msg) ->
  wise_validate P = Ok [probe_environment P; (false, msg)].
Proof. unfold wise_validate. intros -> ->. reflexivity. Qed.

Lemma wise_validate_stops_at_connection P msg :
  fst (probe_environment P) = true ->
  probe_token P = Ok (true, msg) ->
  fst (probe_connection P) = false ->
  wise_validate P = Ok [probe_environment P; (true, msg); probe_connection P].
Proof. unfold wise_validate. intros -> -> ->. reflexivity. Qed.

(** After the connection probe the report is not cut short any more: an
    unresolved profile is reported and the subscriptions are still asked
    for, with that profile. *)
Lemma wise_validate_goes_on_after_profile P msg business_profile webhooks :
  fst (probe_environment P) = true ->
  probe_token P = Ok (true, msg) ->
  fst (probe_connection P) = true ->
  wise_business_profile P = Ok business_profile ->
  subscriptions_list P business_profile = Ok webhooks ->
  wise_validate P =
    Ok [probe_environment P; (true, msg); probe_connection P;
        probe_profile business_profile; probe_webhooks webhooks].
Proof.
  unfold wise_validate. intros -> -> -> Hprofile Hhooks. simpl.
  rewrite Hprofile. simpl. rewrite Hhooks. reflexivity.
Qed.

(** C8, at a provider listing whose only business profile has the id 0:
    the profile probe fails and the report still goes on to the
    subscriptions probe, which is attempted with that id. *)
Theorem wise_validate_report_after_failed_profile :
  wise_validate Sample.zero_profile =
    Ok [(true, "Live environment being used");
        (true, "Access token set");
        (true, "Connection to Wise API succeeded");
        (false, "Wise business profile does not exist");
        (true, "Webhook event subscriptions are present")].
Proof. reflexivity. Qed.

(** An exception of profile resolution leaves the health check with no
    report at all. *)
Example wise_validate_no_report :
  wise_validate Sample.no_business
  = Raise (Exn IndexError "list index out of range").
Proof. reflexivity. Qed.

(** ** Balance-credited handler *)

Lemma py_eq_zero_not_none v : py_eq_zero v = true -> is_none v = false.
Proof. destruct v; simpl; congruence. Qed.

(** C3, as the code has it.  A credit event that names a profile and whose
    account-group id equals 0 is answered with 204 and nothing else
    happens: no row, no request, no log line, whatever the rest of the
    payload holds (the currency may be missing). *)
Theorem sentinel_event_is_acknowledged
    (P : Platform) (event_type event profile_id gid : pyval) (w : World) :
  event_resource event "profile_id" = Ok profile_id ->
  is_none profile_id = false ->
  event_resource event "id" = Ok gid ->
  py_eq_zero gid = true ->
  wise_balance_credit P event_type event w = (Ok ("", 204%Z), w).
Proof.
  intros Hpid Hsome Hgid Hzero.
  unfold wise_balance_credit, bind, lift.
  rewrite Hpid, Hsome, Hgid, (py_eq_zero_not_none _ Hzero), Hzero.
  reflexivity.
Qed.

Lemma sentinel_event_is_acknowledged_witness :
  wise_balance_credit (Sample.platform Sample.live_config true (Ok PyNone)
                         (Ok []) (fun _ => Ok []) (fun _ => Ok PyNone))
    (PyStr "balances#credit") Sample.sentinel_event
    (Sample.world [Sample.gbp_account] [] [])
  = (Ok ("", 204%Z), Sample.world [Sample.gbp_account] [] []).
Proof.
  apply (sentinel_event_is_acknowledged _ _ _ (PyInt 0) (PyInt 0));
    reflexivity.
Defined.

(** C3 as stated fails: with a group id of 0 and no profile id in the
    payload the handler stops at the profile check with a 400. *)
Lemma sentinel_without_profile_is_rejected :
  event_resource Sample.sentinel_without_profile "id" = Ok (PyInt 0) /\
  response_status
    (fst (wise_balance_credit
            (Sample.platform Sample.live_config true (Ok PyNone)
               (Ok []) (fun _ => Ok []) (fun _ => Ok PyNone))
            (PyStr "balances#credit") Sample.sentinel_without_profile
            (Sample.world [Sample.gbp_account] [] []))) = 400%Z.
Proof. split; reflexivity. Qed.

Lemma find_none_of_all_false {A} (f : A -> bool) (l : list A) :
  (forall x, In x l -> f x = false) -> List.find f l = None.
Proof.
  induction l as [|a l IH]; simpl; intros H; [reflexivity|].
  rewrite (H a (or_introl eq_refl)). apply IH. intros x Hx. apply H. now right.
Qed.

(** C5, as the code has it.  A credit event that names a profile, a group
    id other than 0 and a currency, and whose (group id, currency) pair
    matches no active BankAccount row, is answered with 204; no request is
    sent, no provider response is consumed, and neither the transactions
    table nor the session changes. *)
Theorem unknown_account_is_acknowledged
    (P : Platform) (event_type event profile_id gid cur : pyval) (w : World) :
  event_resource event "profile_id" = Ok profile_id ->
  is_none profile_id = false ->
  event_resource event "id" = Ok gid ->
  is_none gid = false ->
  py_eq_zero gid = false ->
  event_data event "currency" = Ok cur ->
  is_none cur = false ->
  (forall b, In b (bank_accounts w) -> bank_account_matches gid cur b = false) ->
  fst (wise_balance_credit P event_type event w) = Ok ("", 204%Z) /\
  sent (snd (wise_balance_credit P event_type event w)) = sent w /\
  network (snd (wise_balance_credit P event_type event w)) = network w /\
  bank_transactions (snd (wise_balance_credit P event_type event w))
    = bank_transactions w /\
  session_new (snd (wise_balance_credit P event_type event w)) = session_new w /\
  bank_accounts (snd (wise_balance_credit P event_type event w)) = bank_accounts w.
Proof.
  intros Hpid Hsome Hgid Hgsome Hnz Hcur Hcsome Hnone.
  unfold wise_balance_credit, bind, lift.
  rewrite Hpid, Hsome, Hgid, Hgsome, Hnz, Hcur, Hcsome.
  unfold logger, find_bank_account, ret. simpl.
  rewrite (find_none_of_all_false _ _ Hnone). simpl. repeat split.
Qed.

Lemma unknown_account_is_acknowledged_witness :
  fst (wise_balance_credit
         (Sample.platform Sample.live_config true (Ok PyNone)
            (Ok []) (fun _ => Ok []) (fun _ => Ok PyNone))
         (PyStr "balances#credit") (Sample.credit_of 77 "EUR")
         (Sample.world [Sample.gbp_account] [] [])) = Ok ("", 204%Z).
Proof.
  apply (unknown_account_is_acknowledged _ _ _ (PyInt 42) (PyInt 77) (PyStr "EUR"));
    try reflexivity.
  intros b [<-|[]]. reflexivity.
Defined.

(** C5 as stated fails: the same unmatched pair in a payload that names no
    profile is answered with 400. *)
Lemma unknown_account_without_profile_is_rejected :
  event_resource Sample.credit_without_profile "id" = Ok (PyInt 77) /\
  event_data Sample.credit_without_profile "currency" = Ok (PyStr "EUR") /\
  List.find (bank_account_matches (PyInt 77) (PyStr "EUR")) [Sample.gbp_account] = None /\
  response_status
    (fst (wise_balance_credit
            (Sample.platform Sample.live_config true (Ok PyNone)
               (Ok []) (fun _ => Ok []) (fun _ => Ok PyNone))
            (PyStr "balances#credit") Sample.credit_without_profile
            (Sample.world [Sample.gbp_account] [] []))) = 400%Z.
Proof. repeat split; reflexivity. Qed.

(** ** Webhook receiver *)

(** C4. A request that passes signature verification and whose
    schema_version is not the string "2.0.0" (the field may be absent, or
    the body may be no JSON object at all) is answered with 500, and no
    handler is called: whatever handlers are registered, no event is
    dispatched and the world differs from the one before the request in
    its log only. *)
Theorem unsupported_schema_is_500
    (P : Platform) (handlers : list (pyval * handler)) (request : Request)
    (signature decoded : string) (body : pyval) (w : World) :
  header_get (request_headers request) "X-Signature" = Ok signature ->
  b64decode P signature = Ok decoded ->
  request_json request = Ok body ->
  is_none body = false ->
  verify_signature P (request_data request) signature = true ->
  py_get body "schema_version" PyNone <> Ok (PyStr "2.0.0") ->
  response_status (fst (wise_webhook P handlers request w)) = 500%Z /\
  dispatched (snd (wise_webhook P handlers request w)) = dispatched w /\
  bank_transactions (snd (wise_webhook P handlers request w)) = bank_transactions w /\
  session_new (snd (wise_webhook P handlers request w)) = session_new w /\
  bank_accounts (snd (wise_webhook P handlers request w)) = bank_accounts w /\
  sent (snd (wise_webhook P handlers request w)) = sent w /\
  network (snd (wise_webhook P handlers request w)) = network w /\
  row_locks (snd (wise_webhook P handlers request w)) = row_locks w.
Proof.
  intros Hsig Hdec Hjson Hsome Hvalid Hschema.
  unfold wise_webhook, bind, try_except, lift, logger, ret. simpl.
  rewrite Hsig, Hdec, Hjson, Hsome. simpl. rewrite Hvalid. simpl.
  destruct (py_get body "schema_version" PyNone) as [v|[k m]] eqn:Ev; simpl.
  - destruct (py_eq_str v "2.0.0") eqn:E.
    + apply py_eq_str_true in E. subst v. contradiction.
    + simpl. repeat split.
  - destruct body; simpl in Ev; try discriminate Ev;
      injection Ev as <- <-; simpl; repeat split.
Qed.

Lemma unsupported_schema_is_500_witness :
  response_status
    (fst (wise_webhook
            (Sample.platform Sample.live_config true (Ok PyNone)
               (Ok []) (fun _ => Ok []) (fun _ => Ok PyNone))
            [(PyStr "balances#credit", Sample.noisy_handler)]
            (Sample.delivery
               (Ok (PyDict [("event_type", PyStr "balances#credit");
                            ("schema_version", PyStr "1.0.0")])))
            (Sample.world [Sample.gbp_account] [] []))) = 500%Z.
Proof.
  apply (unsupported_schema_is_500 _ _ _ "c2lnbmVk" "c2lnbmVk"
           (PyDict [("event_type", PyStr "balances#credit");
                    ("schema_version", PyStr "1.0.0")]));
    try reflexivity.
  discriminate.
Defined.

(** With the supported version the same delivery reaches the handler. *)
Example supported_schema_is_dispatched :
  let run :=
    wise_webhook
      (Sample.platform Sample.live_config true (Ok PyNone)
         (Ok []) (fun _ => Ok []) (fun _ => Ok PyNone))
      [(PyStr "balances#credit", Sample.noisy_handler)]
      (Sample.delivery
         (Ok (PyDict [("event_type", PyStr "balances#credit");
                      ("schema_version", PyStr "2.0.0")])))
      (Sample.world [Sample.gbp_account] [] []) in
  response_status (fst run) = 204%Z /\
  dispatched (snd run) = [PyStr "balances#credit"].
Proof. split; reflexivity. Qed.

(** ** Statement fetcher *)

Lemma statement_result_rejects resp :
  status_code resp <> 200%Z \/
  header_get (headers resp) "X-2FA-Approval-Result" <> Ok "APPROVED" ->
  is_raise (statement_result resp) = true.
Proof.
  unfold statement_result. intros H.
  destruct (status_code resp =? 200)%Z eqn:E; simpl; [|reflexivity].
  apply Z.eqb_eq in E.
  destruct (header_get (headers resp) "X-2FA-Approval-Result") as [r|] eqn:Er;
    simpl; [|reflexivity].
  destruct (String.eqb r "APPROVED") eqn:Ea; simpl; [|reflexivity].
  apply String.eqb_eq in Ea. subst r. destruct H; congruence.
Qed.

Lemma statement_result_approved resp :
  status_code resp = 200%Z ->
  header_get (headers resp) "X-2FA-Approval-Result" = Ok "APPROVED" ->
  statement_result resp = json resp.
Proof. unfold statement_result. intros -> ->. reflexivity. Qed.

(** C6, as the code has it.  When the first response is a 403 whose
    2FA-result header is "REJECTED", and it carries a challenge that the
    configured key signs, the fetcher signs the challenge with PKCS#1 v1.5
    and SHA-256, sends the request a second time with the base64 signature
    and the challenge in its headers, and sends nothing more; without such
    a first response it sends the one request.  The call then raises when
    the final response's status is not 200 or its 2FA-result header is not
    "APPROVED", and otherwise gives what parsing the body gives: the
    payload, or the parser's exception when the body is not JSON.  A 403
    without a 2FA-result header ends the call with the KeyError of the
    header lookup. *)
Theorem wise_statement_protocol
    (P : Platform) (profile_id account_id currency : pyval)
    (interval_start interval_end : string) (w : World) (first : Response) :
  let run := wise_statement P profile_id account_id currency
               interval_start interval_end w in
  let request :=
    statement_request P profile_id account_id currency interval_start interval_end in
  (forall second rest challenge path pem key signature,
     network w = first :: second :: rest ->
     status_code first = 403%Z ->
     header_get (headers first) "X-2FA-Approval-Result" = Ok "REJECTED" ->
     header_get (headers first) "X-2FA-Approval" = Ok challenge ->
     config P !! "TRANSFERWISE_PRIVATE_KEY" = Some path ->
     open_read P path = Ok pem ->
     load_pem_private_key P pem = Ok key ->
     str_is_ascii challenge = true ->
     sign P key challenge PKCS1v15 SHA256 = Ok signature ->
     sent (snd run) =
       sent w ++ [request (client_required_headers P);
                  request (<["X-2FA-Approval" := challenge]>
                             (<["X-Signature" := b64encode P signature]>
                                (client_required_headers P)))] /\
     network (snd run) = rest /\
     fst run = statement_result second /\
     (status_code second <> 200%Z \/
      header_get (headers second) "X-2FA-Approval-Result" <> Ok "APPROVED" ->
      is_raise (fst run) = true) /\
     (status_code second = 200%Z ->
      header_get (headers second) "X-2FA-Approval-Result" = Ok "APPROVED" ->
      fst run = json second))
  /\
  (forall rest,
     network w = first :: rest ->
     challenged first = Ok false ->
     sent (snd run) = sent w ++ [request (client_required_headers P)] /\
     network (snd run) = rest /\
     fst run = statement_result first /\
     (status_code first <> 200%Z \/
      header_get (headers first) "X-2FA-Approval-Result" <> Ok "APPROVED" ->
      is_raise (fst run) = true) /\
     (status_code first = 200%Z ->
      header_get (headers first) "X-2FA-Approval-Result" = Ok "APPROVED" ->
      fst run = json first))
  /\
  (forall rest e,
     network w = first :: rest ->
     challenged first = Raise e ->
     sent (snd run) = sent w ++ [request (client_required_headers P)] /\
     network (snd run) = rest /\
     status_code first = 403%Z /\
     fst run = Raise e).
Proof.
  cbv zeta. split; [|split].
  - intros second rest challenge path pem key signature
      Hnet H403 Hrej Hch Hpath Hpem Hkey Hascii Hsign.
    assert (Hrun : wise_statement P profile_id account_id currency
                     interval_start interval_end w
                   = (statement_result second,
                      {| bank_accounts := bank_accounts w;
                         bank_transactions := bank_transactions w;
                         session_new := session_new w;
                         row_locks := row_locks w;
                         clock := clock w;
                         network := rest;
                         sent := (sent w ++
                                  [statement_request P profile_id account_id currency
                                     interval_start interval_end
                                     (client_required_headers P)]) ++
                                 [statement_request P profile_id account_id currency
                                    interval_start interval_end
                                    (<["X-2FA-Approval" := challenge]>
                                       (<["X-Signature" := b64encode P signature]>
                                          (client_required_headers P)))];
                         log := log w;
                         dispatched := dispatched w |})).
    { unfold wise_statement, bind, lift, requests_get, challenged, answer_challenge.
      rewrite Hnet. simpl. rewrite H403. simpl. rewrite Hrej. simpl.
      rewrite Hch. simpl. rewrite Hpath. simpl. rewrite Hpem. simpl.
      rewrite Hkey. simpl. rewrite Hascii. simpl. rewrite Hsign. simpl.
      reflexivity. }
    rewrite Hrun. simpl. rewrite <- app_assoc. simpl.
    repeat split; auto using statement_result_rejects, statement_result_approved.
  - intros rest Hnet Hplain.
    assert (Hrun : wise_statement P profile_id account_id currency
                     interval_start interval_end w
                   = (statement_result first,
                      {| bank_accounts := bank_accounts w;
                         bank_transactions := bank_transactions w;
                         session_new := session_new w;
                         row_locks := row_locks w;
                         clock := clock w;
                         network := rest;
                         sent := sent w ++
                                 [statement_request P profile_id account_id currency
                                    interval_start interval_end
                                    (client_required_headers P)];
                         log := log w;
                         dispatched := dispatched w |})).
    { unfold wise_statement, bind, lift, requests_get, ret.
      rewrite Hnet. simpl. rewrite Hplain. simpl. reflexivity. }
    rewrite Hrun. simpl.
    repeat split; auto using statement_result_rejects, statement_result_approved.
  - intros rest e Hnet Hraise.
    unfold wise_statement, bind, lift, requests_get.
    rewrite Hnet. simpl. rewrite Hraise. simpl. repeat split.
    unfold challenged in Hraise.
    destruct (status_code first =? 403)%Z eqn:E; [|discriminate Hraise].
    apply Z.eqb_eq in E. exact E.
Qed.

Lemma wise_statement_protocol_witness :
  let run :=
    wise_statement
      (Sample.platform Sample.live_config true (Ok PyNone)
         (Ok []) (fun _ => Ok []) (fun _ => Ok PyNone))
      (PyInt 42) (PyInt 77) (PyStr "GBP") "2024-01-01Z" "2024-01-08Z"
      (Sample.world [Sample.gbp_account] []
         [Sample.rejected_response; Sample.approved_response (Ok Sample.statement)]) in
  fst run = Ok Sample.statement /\
  List.length (sent (snd run)) = 2 /\
  network (snd run) = [].
Proof.
  cbv zeta.
  destruct (wise_statement_protocol
              (Sample.platform Sample.live_config true (Ok PyNone)
                 (Ok []) (fun _ => Ok []) (fun _ => Ok PyNone))
              (PyInt 42) (PyInt 77) (PyStr "GBP") "2024-01-01Z" "2024-01-08Z"
              (Sample.world [Sample.gbp_account] []
                 [Sample.rejected_response;
                  Sample.approved_response (Ok Sample.statement)])
              Sample.rejected_response) as [Hchallenge _].
  destruct (Hchallenge (Sample.approved_response (Ok Sample.statement)) []
              "be2f6579-9426-480b-9cb7-d8f1116cc8b9"
              (PyStr "/etc/wise/private.pem") "/etc/wise/private.pem"
              "/etc/wise/private.pem"
              "pkcs1v15-sha256:/etc/wise/private.pem:be2f6579-9426-480b-9cb7-d8f1116cc8b9"
              eq_refl eq_refl eq_refl eq_refl eq_refl eq_refl eq_refl eq_refl eq_refl)
    as (Hsent & Hnet & _ & _ & Hok).
  split; [|split].
  - rewrite Hok; reflexivity.
  - rewrite Hsent. reflexivity.
  - exact Hnet.
Defined.

(** C6 as stated fails in its "only if": a final response with status 200
    and the 2FA-result "APPROVED" whose body is not JSON makes the call
    raise. *)
Lemma approved_response_without_json_raises :
  let resp := Sample.approved_response (Raise (Exn ValueError "Expecting value")) in
  status_code resp = 200%Z /\
  header_get (headers resp) "X-2FA-Approval-Result" = Ok "APPROVED" /\
  fst (wise_statement
         (Sample.platform Sample.live_config true (Ok PyNone)
            (Ok []) (fun _ => Ok []) (fun _ => Ok PyNone))
         (PyInt 42) (PyInt 77) (PyStr "GBP") "2024-01-01Z" "2024-01-08Z"
         (Sample.world [Sample.gbp_account] [] [resp]))
  = Raise (Exn ValueError "Expecting value").
Proof. cbv zeta. repeat split; reflexivity. Qed.

(** ** Reconciliation *)





Lemma covered_app_l b rows more e :
  covered b rows e = true -> covered b (rows ++ more) e = true.
Proof.
  unfold covered. destruct (credit_key e) as [[[[d l] r]|]|]; auto.
  rewrite existsb_app. intros ->. reflexivity.
Qed.

Lemma forallb_covered_app_l b rows more es :
  forallb (covered b rows) es = true ->
  forallb (covered b (rows ++ more)) es = true.
Proof.
  rewrite !forallb_forall. intros H e He. apply covered_app_l. auto.
Qed.

Section Reconcile.

Context (P : Platform) (bank_account : BankAccount).







End Reconcile.

Section Idempotence.

Context (P : Platform).






Lemma wise_statement_fetched pid aid cur t0 t1 w :
  fst (wise_statement P pid aid cur t0 t1 w) = fetched P (network w) /\
  bank_transactions (snd (wise_statement P pid aid cur t0 t1 w)) = bank_transactions w /\
  session_new (snd (wise_statement P pid aid cur t0 t1 w)) = session_new w /\
  bank_accounts (snd (wise_statement P pid aid cur t0 t1 w)) = bank_accounts w.
Proof.
  unfold wise_statement, fetched, bind, lift, requests_get, ret.
  destruct (network w) as [|first rest]; simpl; [auto|].
  destruct (challenged first) as [[|]|]; simpl; auto.
  destruct (answer_challenge P first (client_required_headers P)); simpl; auto.
  destruct rest; simpl; auto.
Qed.

End Idempotence.

Section Handler.

Context (P : Platform).



End Handler.



(** The scenario of the specification: one CREDIT entry dated 2024-01-01,
    detail type TRANSFER, reference INV123, amount 50.00, met by an account
    with no rows, makes one row; a second delivery makes none. *)
Example credit_delivery_scenario :
  let P := Sample.platform Sample.live_config true (Ok PyNone)
             (Ok []) (fun _ => Ok []) (fun _ => Ok PyNone) in
  let statement :=
    PyDict [("transactions",
              PyList [Sample.entry "CREDIT" "2024-01-01" "TRANSFER" "INV123"
                        (PyFloat (S754_finite false 25 1))])] in
  let net := [Sample.approved_response (Ok statement)] in
  let once :=
    snd (wise_balance_credit P (PyStr "balances#credit") (Sample.credit_of 77 "GBP")
           (Sample.world [Sample.gbp_account] [] net)) in
  let twice :=
    snd (wise_balance_credit P (PyStr "balances#credit") (Sample.credit_of 77 "GBP")
           (next_request net 1704672060000000 once)) in
  bank_transactions once =
    [{| account_id := Some 1%Z;
        posted := PyStr "2024-01-01";
        type := "transfer";
        amount := PyFloat (S754_finite false 25 1);
        payee := PyStr "INV123" |}] /\
  bank_transactions twice = bank_transactions once.
Proof. cbv zeta. split; reflexivity. Qed.

(** A statement that names the same credit twice: with a session that
    flushes before it queries the second entry finds the row of the first;
    without, both entries make a row.  Either way a second delivery adds
    nothing. *)
Example credit_delivery_repeated_entry :
  let run flush w :=
    snd (wise_balance_credit
           (Sample.platform Sample.live_config flush (Ok PyNone)
              (Ok []) (fun _ => Ok []) (fun _ => Ok PyNone))
           (PyStr "balances#credit") (Sample.credit_of 77 "GBP") w) in
  let net := [Sample.rejected_response; Sample.approved_response (Ok Sample.statement)] in
  let start := Sample.world [Sample.gbp_account] [] net in
  List.length (bank_transactions (run true start)) = 2 /\
  List.length (bank_transactions (run false start)) = 3 /\
  bank_transactions (run true (next_request net 0 (run true start)))
    = bank_transactions (run true start) /\
  bank_transactions (run false (next_request net 0 (run false start)))
    = bank_transactions (run false start).
Proof. cbv zeta. repeat split; reflexivity. Qed.

(** ** Further properties *)

(** Every account [_collect_bank_accounts] yields comes from a balance of
    the borderless account. *)
Lemma _collect_bank_accounts_In borderless_account acct :
  In acct (fst (_collect_bank_accounts borderless_account)) ->
  exists balances accounts account,
    py_getattr borderless_account "balances" = Ok balances /\
    py_iter balances = Ok accounts /\
    In account accounts /\
    collect_balance borderless_account account = Ok (Some acct).
Proof.
  unfold _collect_bank_accounts.
  destruct (py_getattr borderless_account "balances") as [balances|] eqn:Eb;
    [|contradiction].
  destruct (py_iter balances) as [accounts|] eqn:Ei; [|contradiction].
  intros Hin. apply collect_balances_In in Hin as (account & ? & ?).
  exists balances, accounts, account. repeat split; auto.
Qed.

Lemma collect_all_In borderless_accounts acct :
  In acct (fst (collect_all borderless_accounts)) ->
  exists borderless_account,
    In borderless_account borderless_accounts /\
    In acct (fst (_collect_bank_accounts borderless_account)).
Proof.
  induction borderless_accounts as [|b rest IH]; simpl; [contradiction|].
  destruct (_collect_bank_accounts b) as [bs [e|]] eqn:E; simpl.
  - intros Hin. exists b. rewrite E. auto.
  - destruct (collect_all rest) as [bs' e']. simpl in *.
    intros Hin. apply in_app_or in Hin as [Hin|Hin].
    + exists b. rewrite E. auto.
    + destruct (IH Hin) as (x & ? & ?). eauto.
Qed.

(** Discovery produces inactive accounts only. *)
Theorem discovered_accounts_are_inactive (P : Platform) (acct : BankAccount) :
  In acct (fst (wise_retrieve_accounts P)) -> active acct = false.
Proof.
  unfold wise_retrieve_accounts.
  destruct (wise_business_profile P) as [profile|]; [|contradiction].
  destruct (py_truthy profile); simpl; [|contradiction].
  destruct (borderless_accounts_list P profile) as [bas|]; [|contradiction].
  intros Hin. apply collect_all_In in Hin as (ba & _ & Hin).
  apply _collect_bank_accounts_In in Hin as (balances & accounts & account & Hy).
  destruct Hy as (_ & _ & _ & Hy).
  apply collect_balance_yields in Hy as (bd & baddr & routing & H). tauto.
Qed.

Lemma discovered_accounts_are_inactive_witness :
  exists acct,
    In acct (fst (wise_retrieve_accounts
                    (Sample.platform Sample.live_config true (Ok PyNone)
                       (Ok [Sample.business_profile 42])
                       (fun _ => Ok [Sample.borderless_account])
                       (fun _ => Ok (PyList []))))) /\
    acct_id acct = PyStr "12345678" /\
    active acct = false.
Proof.
  eexists. split; [left; reflexivity|]. split; [reflexivity|].
  apply (discovered_accounts_are_inactive
           (Sample.platform Sample.live_config true (Ok PyNone)
              (Ok [Sample.business_profile 42])
              (fun _ => Ok [Sample.borderless_account])
              (fun _ => Ok (PyList [])))).
  left. reflexivity.
Defined.

(** What discovery makes of the sample borderless account. *)
Example sample_discovery :
  map (fun b => (sort_code b, acct_id b))
      (fst (_collect_bank_accounts Sample.borderless_account))
  = [(PyStr "23-14-70", PyStr "12345678");
     (PyStr "23-14-70", PyStr "12345678");
     (PyNone, PyNone)].
Proof. reflexivity. Qed.

(** X2. An exception of a handler, the 400 of its own [abort] included, is
    answered with 500 by the receiver: whatever the handler raises in the
    world it is started in, and in whatever world it leaves, the answer is
    500 and the receiver adds its log line only. *)
Theorem handler_exception_is_500
    (P : Platform) (handlers : list (pyval * handler)) (request : Request)
    (signature decoded : string) (body event_type : pyval) (h : handler)
    (w w2 : World) (e : exn) :
  header_get (request_headers request) "X-Signature" = Ok signature ->
  b64decode P signature = Ok decoded ->
  request_json request = Ok body ->
  is_none body = false ->
  verify_signature P (request_data request) signature = true ->
  py_get body "schema_version" PyNone = Ok (PyStr "2.0.0") ->
  py_get body "event_type" PyNone = Ok event_type ->
  registry_get handlers event_type = Ok h ->
  h event_type body (dispatch_world event_type w) = (Raise e, w2) ->
  at_dispatch event_type w (dispatch_world event_type w) /\
  response_status (fst (wise_webhook P handlers request w)) = 500%Z /\
  untouched w2 (snd (wise_webhook P handlers request w)).
Proof.
  intros Hsig Hdec Hjson Hsome Hvalid Hschema Htype Hreg Hraise.
  split; [unfold at_dispatch, dispatch_world; simpl; repeat split|].
  unfold dispatch_world, record_dispatch, logger in Hraise. simpl in Hraise.
  unfold wise_webhook, bind, try_except, lift, logger, ret, record_dispatch. simpl.
  rewrite Hsig, Hdec, Hjson, Hsome. simpl. rewrite Hvalid. simpl.
  rewrite Hschema. simpl. rewrite Htype. simpl. rewrite Hreg. simpl.
  rewrite Hraise. simpl. split; [reflexivity|].
  unfold untouched. simpl. repeat split.
Qed.

Lemma handler_exception_is_500_witness :
  let P := Sample.platform Sample.live_config true (Ok PyNone)
             (Ok []) (fun _ => Ok []) (fun _ => Ok PyNone) in
  response_status
    (fst (wise_webhook P (webhook_handlers P)
            (Sample.delivery (Ok Sample.sentinel_without_profile))
            (Sample.world [Sample.gbp_account] [] []))) = 500%Z.
Proof.
  cbv zeta.
  eapply (handler_exception_is_500 _ _ _ "c2lnbmVk" "c2lnbmVk"
            Sample.sentinel_without_profile (PyStr "balances#credit")
            (wise_balance_credit
               (Sample.platform Sample.live_config true (Ok PyNone)
                  (Ok []) (fun _ => Ok []) (fun _ => Ok PyNone))));
    reflexivity.
Defined.

(** A handler that raises only where the transactions table is empty: in
    the dispatch world of such a table the receiver answers 500. *)
Example handler_exception_depends_on_world :
  let h : handler := fun _ _ w =>
    match bank_transactions w with
    | [] => (Raise (Exn KeyError "rows"), w)
    | _ :: _ => (Ok (EmptyString, 204%Z), w)
    end in
  let P := Sample.platform Sample.live_config true (Ok PyNone)
             (Ok []) (fun _ => Ok []) (fun _ => Ok PyNone) in
  response_status
    (fst (wise_webhook P [(PyStr "balances#credit", h)]
            (Sample.delivery (Ok Sample.sentinel_event))
            (Sample.world [Sample.gbp_account] [] []))) = 500%Z.
Proof. reflexivity. Qed.

(** ** The handler registry *)

Lemma pyval_eqb_eq (a : pyval) : forall b, pyval_eqb a b = true -> a = b.
Proof.
  revert a. fix IH 1. intros [| x | x | x | x | xs | xs] [| y | y | y | y | ys | ys];
    simpl; try discriminate; intros H.
  - reflexivity.
  - apply Bool.eqb_prop in H. congruence.
  - apply Z.eqb_eq in H. congruence.
  - destruct x as [s|s| |s m e], y as [t|t| |t n f]; try discriminate H.
    + apply Bool.eqb_prop in H. congruence.
    + apply Bool.eqb_prop in H. congruence.
    + reflexivity.
    + apply andb_true_iff in H as [H He]. apply andb_true_iff in H as [Hs Hm].
      apply Bool.eqb_prop in Hs. apply Pos.eqb_eq in Hm. apply Z.eqb_eq in He.
      congruence.
  - apply String.eqb_eq in H. congruence.
  - f_equal. revert ys H. induction xs as [|x xs IHxs]; intros [|y ys] H;
      try discriminate H; [reflexivity|].
    apply andb_true_iff in H as [Hx Hrest].
    f_equal; [apply IH, Hx | apply IHxs, Hrest].
  - f_equal. revert ys H. induction xs as [|[k x] xs IHxs]; intros [|[l y] ys] H;
      try discriminate H; [reflexivity|].
    apply andb_true_iff in H as [H Hrest]. apply andb_true_iff in H as [Hk Hx].
    apply String.eqb_eq in Hk. f_equal; [|apply IHxs, Hrest].
    f_equal; [exact Hk | apply IH, Hx].
Qed.

Lemma pyval_eqb_neq a b : a <> b -> pyval_eqb a b = false.
Proof.
  intros Hne. destruct (pyval_eqb a b) eqn:E; [|reflexivity].
  apply pyval_eqb_eq in E. contradiction.
Qed.

Lemma registry_get_cons k h rest event_type :
  (forall l, event_type <> PyList l) ->
  (forall d, event_type <> PyDict d) ->
  registry_get ((k, h) :: rest) event_type =
    if pyval_eqb k event_type then Ok h else registry_get rest event_type.
Proof.
  intros Hl Hd. destruct event_type; try reflexivity;
    [exfalso; eapply Hl | exfalso; eapply Hd]; reflexivity.
Qed.

Lemma registry_get_dict_set_same (t : string) (f : handler) handlers :
  registry_get (dict_set (PyStr t) f handlers) (PyStr t) = Ok f.
Proof.
  induction handlers as [|[k h] rest IH]; simpl.
  - rewrite String.eqb_refl. reflexivity.
  - destruct (pyval_eqb k (PyStr t)) eqn:E; simpl; rewrite E; [reflexivity|exact IH].
Qed.

Lemma registry_get_dict_set_other (t : string) (f : handler) handlers event_type :
  event_type <> PyStr t ->
  registry_get (dict_set (PyStr t) f handlers) event_type
  = registry_get handlers event_type.
Proof.
  intros Hne. induction handlers as [|[k h] rest IH]; simpl.
  - destruct event_type as [| b | z | x | s | l | d]; try reflexivity.
    simpl. destruct (String.eqb t s) eqn:Es; [|reflexivity].
    apply String.eqb_eq in Es. subst. contradiction.
  - destruct (pyval_eqb k (PyStr t)) eqn:E.
    + apply pyval_eqb_eq in E. subst k.
      destruct event_type as [| b | z | x | s | l | d]; try reflexivity.
      simpl. destruct (String.eqb t s) eqn:Es; [|reflexivity].
      apply String.eqb_eq in Es. subst. contradiction.
    + destruct event_type as [| b | z | x | s | l | d]; try reflexivity;
        simpl; rewrite IH; reflexivity.
Qed.

(** X3. Registering a handler under a string event type makes the registry
    answer that event type with the handler, whatever was registered
    before, and leaves the answer for every other event type as it was. *)
Theorem webhook_registers_handler (t : string) (f : handler)
    (handlers : list (pyval * handler)) :
  exists handlers',
    webhook (PyStr t) f handlers = Ok (f, handlers') /\
    registry_get handlers' (PyStr t) = Ok f /\
    (forall event_type, event_type <> PyStr t ->
       registry_get handlers' event_type = registry_get handlers event_type).
Proof.
  exists (dict_set (PyStr t) f handlers). split; [reflexivity|]. split.
  - apply registry_get_dict_set_same.
  - intros. now apply registry_get_dict_set_other.
Qed.

(** The registry of the module is what the one decorated definition
    leaves in the empty dict. *)
Lemma webhook_handlers_registered (P : Platform) :
  webhook (PyStr "balances#credit") (wise_balance_credit P) []
  = Ok (wise_balance_credit P, webhook_handlers P).
Proof. reflexivity. Qed.

(** ** Webhook receiver: the other answers *)

Lemma authentic_true P request :
  authentic P request = true ->
  exists signature decoded body,
    header_get (request_headers request) "X-Signature" = Ok signature /\
    b64decode P signature = Ok decoded /\
    request_json request = Ok body /\
    is_none body = false /\
    verify_signature P (request_data request) signature = true.
Proof.
  unfold authentic.
  destruct (header_get (request_headers request) "X-Signature") as [sg|] eqn:Hs;
    [|discriminate].
  destruct (b64decode P sg) as [dec|] eqn:Hd; [|discriminate].
  destruct (request_json request) as [body|] eqn:Hj; [|discriminate].
  intros H. apply andb_true_iff in H as [Hn Hv]. apply negb_true_iff in Hn.
  exists sg, dec, body. auto.
Qed.

(** X4. A request whose X-Signature header is missing or does not decode,
    whose body is not JSON or is null, or whose signature does not verify,
    is answered with 400; no handler is called, and nothing but the log
    changes. *)
Theorem unauthenticated_request_is_400
    (P : Platform) (handlers : list (pyval * handler)) (request : Request)
    (w : World) :
  authentic P request = false ->
  response_status (fst (wise_webhook P handlers request w)) = 400%Z /\
  untouched w (snd (wise_webhook P handlers request w)).
Proof.
  unfold authentic, untouched. intros H.
  unfold wise_webhook, bind, try_except, lift, logger, ret, abort, raise. simpl.
  destruct (header_get (request_headers request) "X-Signature") as [sg|];
    simpl; [|repeat split].
  destruct (b64decode P sg) as [dec|]; simpl; [|repeat split].
  destruct (request_json request) as [body|]; simpl; [|repeat split].
  destruct (is_none body); simpl in *; [repeat split|].
  rewrite H. simpl. repeat split.
Qed.

Lemma unauthenticated_request_is_400_witness :
  let P := Sample.platform Sample.live_config true (Ok PyNone)
             (Ok []) (fun _ => Ok []) (fun _ => Ok PyNone) in
  let forged :=
    {| request_data := "{...}";
       request_headers := [("X-Signature", "Zm9yZ2Vk")];
       request_json := Ok (Sample.credit_of 77 "GBP") |} in
  let unsigned :=
    {| request_data := "{...}";
       request_headers := [("Content-Type", "application/json")];
       request_json := Ok (Sample.credit_of 77 "GBP") |} in
  response_status
    (fst (wise_webhook P (webhook_handlers P) forged
            (Sample.world [Sample.gbp_account] [] []))) = 400%Z /\
  response_status
    (fst (wise_webhook P (webhook_handlers P) unsigned
            (Sample.world [Sample.gbp_account] [] []))) = 400%Z.
Proof.
  cbv zeta. split.
  - apply (unauthenticated_request_is_400
             (Sample.platform Sample.live_config true (Ok PyNone)
                (Ok []) (fun _ => Ok []) (fun _ => Ok PyNone))).
    reflexivity.
  - apply (unauthenticated_request_is_400
             (Sample.platform Sample.live_config true (Ok PyNone)
                (Ok []) (fun _ => Ok []) (fun _ => Ok PyNone))).
    reflexivity.
Defined.

(** X5. An authentic request with the supported schema version goes to the
    handler registered for its event type: what the handler returns is the
    receiver's answer, and the handler's world is the receiver's. *)
Theorem authentic_request_is_dispatched
    (P : Platform) (handlers : list (pyval * handler)) (request : Request)
    (body event_type : pyval) (h : handler) (w : World) :
  authentic P request = true ->
  request_json request = Ok body ->
  py_get body "schema_version" PyNone = Ok (PyStr "2.0.0") ->
  py_get body "event_type" PyNone = Ok event_type ->
  registry_get handlers event_type = Ok h ->
  exists w1,
    at_dispatch event_type w w1 /\
    (forall r, fst (h event_type body w1) = Ok r ->
       wise_webhook P handlers request w = h event_type body w1).
Proof.
  intros Hauth Hjson Hschema Htype Hreg.
  destruct (authentic_true _ _ Hauth) as (sg & dec & body' & Hsig & Hdec & Hj & Hn & Hv).
  rewrite Hjson in Hj. injection Hj as <-.
  unfold wise_webhook, bind, try_except, lift, logger, ret, record_dispatch. simpl.
  rewrite Hsig, Hdec, Hjson, Hn. simpl. rewrite Hv. simpl.
  rewrite Hschema. simpl. rewrite Htype. simpl. rewrite Hreg. simpl.
  eexists. split; [|intros r Hr].
  2:{ destruct (h event_type body _) as [[r'|e] u] eqn:E at 1; simpl.
      - rewrite E. reflexivity.
      - rewrite E in Hr. discriminate Hr. }
  unfold at_dispatch. simpl. repeat split.
Qed.

(** ** Reconciliation: the rows it adds *)

Lemma ascii_lower_idem c : ascii_lower (ascii_lower c) = ascii_lower c.
Proof.
  destruct c as [[|] [|] [|] [|] [|] [|] [|] [|]]; reflexivity.
Qed.

Lemma str_lower_idem s : str_lower (str_lower s) = str_lower s.
Proof.
  induction s as [|c s IH]; simpl; [reflexivity|].
  rewrite ascii_lower_idem, IH. reflexivity.
Qed.

Lemma str_lower_length s : String.length (str_lower s) = String.length s.
Proof. induction s as [|c s IH]; simpl; congruence. Qed.

(** The detail type in a key is in lower case. *)
Lemma credit_key_lowered e date lowered ref :
  credit_key e = Ok (Some (date, lowered, ref)) -> str_lower lowered = lowered.
Proof.
  unfold credit_key.
  destruct (py_getattr e "type") as [ty|]; simpl; [|discriminate].
  destruct (py_eq_str ty "CREDIT"); simpl; [|discriminate].
  destruct (py_getattr e "date") as [d|]; simpl; [|discriminate].
  destruct (py_getattr e "details") as [det|]; simpl; [|discriminate].
  destruct (py_getattr det "type") as [dt|]; simpl; [|discriminate].
  destruct dt; simpl; try discriminate.
  destruct (py_getattr det "paymentReference") as [r|]; simpl; [|discriminate].
  intros [= _ <- _]. apply str_lower_idem.
Qed.

(** A key is made of entries of type CREDIT only. *)
Lemma credit_key_is_credit e key :
  credit_key e = Ok (Some key) -> py_getattr e "type" = Ok (PyStr "CREDIT").
Proof.
  unfold credit_key.
  destruct (py_getattr e "type") as [ty|]; simpl; [|discriminate].
  destruct (py_eq_str ty "CREDIT") eqn:E; simpl; [|discriminate].
  apply py_eq_str_true in E. subst. reflexivity.
Qed.

Lemma fresh_rows_app rows a1 : forall a2,
  fresh_rows rows a1 -> fresh_rows (rows ++ a1) a2 -> fresh_rows rows (a1 ++ a2).
Proof.
  revert rows. induction a1 as [|t a1 IH]; simpl; intros rows a2 H1 H2.
  - now rewrite app_nil_r in H2.
  - destruct H1 as [Hf H1]. split; [exact Hf|].
    apply IH; [exact H1|]. now rewrite <- app_assoc.
Qed.

Lemma find_none_existsb {A} (f : A -> bool) (l : list A) :
  List.find f l = None -> existsb f l = false.
Proof.
  induction l as [|a l IH]; simpl; [reflexivity|].
  destruct (f a); simpl; [discriminate | exact IH].
Qed.

Section Added.

Context (P : Platform) (b : BankAccount).

Lemma reconcile_entry_only_session e txns w :
  only_session w (snd (reconcile_entry P b e txns w)).
Proof.
  unfold only_session, reconcile_entry, bind, lift, find_transaction, ret,
    db_session_add.
  destruct (credit_key e) as [[[[date lowered] ref]|]|]; simpl; try tauto.
  destruct (List.find _ _); simpl; try tauto.
  destruct (py_getattr e "amount") as [amt|]; simpl; try tauto.
  destruct (py_getattr amt "value"); simpl; tauto.
Qed.

Lemma reconcile_only_session es : forall txns w,
  only_session w (snd (reconcile P b es txns w)).
Proof.
  induction es as [|e rest IH]; simpl; intros txns w.
  - unfold only_session. tauto.
  - unfold bind. pose proof (reconcile_entry_only_session e txns w) as H1.
    destruct (reconcile_entry P b e txns w) as [[t1|ex] w1]; simpl in *; [|exact H1].
    pose proof (IH t1 w1) as H2. unfold only_session in *.
    destruct H1 as (?&?&?&?&?&?&?&?), H2 as (?&?&?&?&?&?&?&?).
    repeat split; congruence.
Qed.

Lemma reconcile_entry_added e txns txns' w w' :
  reconcile_entry P b e txns w = (Ok txns', w') ->
  exists added,
    session_new w' = session_new w ++ added /\
    txns' = txns ++ added /\
    Forall (row_of_entry b e) added /\
    (autoflush P = true ->
     fresh_rows (bank_transactions w ++ session_new w) added).
Proof.
  unfold reconcile_entry, bind, lift, find_transaction, ret, db_session_add.
  destruct (credit_key e) as [[[[date lowered] ref]|]|] eqn:Hkey; simpl.
  - destruct (List.find _ (visible_transactions (autoflush P) w)) as [t|] eqn:Hfind.
    + intros [= <- <-]. exists []. rewrite !app_nil_r. simpl. auto.
    + destruct (py_getattr e "amount") as [amt|] eqn:Ha; simpl; [|discriminate].
      destruct (py_getattr amt "value") as [value|] eqn:Hv; simpl; [|discriminate].
      intros [= <- <-]. eexists [_]. simpl.
      split; [reflexivity|]. split; [reflexivity|]. split.
      * constructor; [|constructor]. unfold row_of_entry. simpl. eauto.
      * intros Hflush. simpl. apply find_none_existsb in Hfind.
        unfold visible_transactions in Hfind. rewrite Hflush in Hfind. auto.
  - intros [= <- <-]. exists []. rewrite !app_nil_r. simpl. auto.
  - discriminate.
Qed.

Lemma reconcile_added es : forall txns txns' w w',
  reconcile P b es txns w = (Ok txns', w') ->
  exists added,
    session_new w' = session_new w ++ added /\
    txns' = txns ++ added /\
    Forall (fun t => exists e, In e es /\ row_of_entry b e t) added /\
    (autoflush P = true ->
     fresh_rows (bank_transactions w ++ session_new w) added).
Proof.
  induction es as [|e rest IH]; simpl; intros txns txns' w w' H.
  - injection H as <- <-. exists []. rewrite !app_nil_r. simpl. auto.
  - unfold bind in H.
    pose proof (reconcile_entry_only_session e txns w) as Hframe.
    destruct (reconcile_entry P b e txns w) as [[txns1|ex] w1] eqn:He;
      [|discriminate H].
    simpl in Hframe. destruct Hframe as (_ & Hrows & _).
    apply reconcile_entry_added in He as (a1 & Hs1 & Ht1 & Hf1 & Hfresh1).
    apply IH in H as (a2 & Hs2 & Ht2 & Hf2 & Hfresh2).
    exists (a1 ++ a2). split; [|split; [|split]].
    + rewrite Hs2, Hs1, app_assoc. reflexivity.
    + rewrite Ht2, Ht1, app_assoc. reflexivity.
    + apply Forall_app. split.
      * eapply Forall_impl; [exact Hf1|]. simpl. intros t Ht. exists e. auto.
      * eapply Forall_impl; [exact Hf2|]. simpl. intros t (x & Hx & Ht). exists x. auto.
    + intros Hflush. apply fresh_rows_app; [auto|].
      specialize (Hfresh2 Hflush). rewrite Hrows, Hs1, app_assoc in Hfresh2.
      exact Hfresh2.
Qed.

End Added.

(** ** Statement fetcher: the requests it sends *)

(** What a call does to the world, whatever it returns. *)
Lemma wise_statement_effects
    (P : Platform) (profile_id account_id currency : pyval)
    (interval_start interval_end : string) (w : World) :
  let w' := snd (wise_statement P profile_id account_id currency
                   interval_start interval_end w) in
  (exists more,
     sent w' = sent w ++
       statement_request P profile_id account_id currency interval_start
         interval_end (client_required_headers P) :: more /\
     (List.length more <= 1)%nat) /\
  bank_accounts w' = bank_accounts w /\
  bank_transactions w' = bank_transactions w /\
  session_new w' = session_new w /\
  row_locks w' = row_locks w /\
  log w' = log w /\
  dispatched w' = dispatched w.
Proof.
  cbv zeta. unfold wise_statement, bind, lift, requests_get, ret, statement_request.
  destruct (network w) as [|first rest]; simpl.
  { split; [exists []; split; [reflexivity | simpl; lia]|]. repeat split. }
  destruct (challenged first) as [[|]|]; simpl.
  - destruct (answer_challenge P first (client_required_headers P)) as [hs|]; simpl.
    + destruct rest as [|second rest']; simpl;
        (split; [eexists [_]; rewrite <- app_assoc; split; [reflexivity | simpl; lia]|]);
        repeat split.
    + split; [exists []; split; [reflexivity | simpl; lia]|]. repeat split.
  - split; [exists []; split; [reflexivity | simpl; lia]|]. repeat split.
  - split; [exists []; split; [reflexivity | simpl; lia]|]. repeat split.
Qed.

(** X8. Every call sends the request with the client's own headers first and
    at most one more after it, and leaves the tables, the session, the
    locks and the log alone. *)
Theorem wise_statement_sends_one_or_two
    (P : Platform) (profile_id account_id currency : pyval)
    (interval_start interval_end : string) (w : World) :
  let w' := snd (wise_statement P profile_id account_id currency
                   interval_start interval_end w) in
  (exists more,
     sent w' = sent w ++
       statement_request P profile_id account_id currency interval_start
         interval_end (client_required_headers P) :: more /\
     (List.length more <= 1)%nat) /\
  bank_accounts w' = bank_accounts w /\
  bank_transactions w' = bank_transactions w /\
  session_new w' = session_new w /\
  row_locks w' = row_locks w /\
  log w' = log w /\
  dispatched w' = dispatched w.
Proof.
  cbv zeta.
  destruct (wise_statement_effects P profile_id account_id currency
              interval_start interval_end w)
    as ((more & Hsent & Hlen) & Ha & Ht & Hs & Hl & Hlog & Hd).
  split; [exists more; split; assumption|].
  repeat split; assumption.
Qed.

(** X9. A challenge that cannot be answered (no challenge header, no key
    configured, an unreadable or unloadable key, a challenge that is not
    ASCII, a signing error) ends the call with that exception after the
    one request: nothing is retried. *)
Theorem unanswerable_challenge_is_not_retried
    (P : Platform) (profile_id account_id currency : pyval)
    (interval_start interval_end : string) (w : World)
    (first : Response) (rest : list Response) (e : exn) :
  network w = first :: rest ->
  challenged first = Ok true ->
  answer_challenge P first (client_required_headers P) = Raise e ->
  let run := wise_statement P profile_id account_id currency
               interval_start interval_end w in
  fst run = Raise e /\
  sent (snd run) =
    sent w ++ [statement_request P profile_id account_id currency interval_start
                 interval_end (client_required_headers P)] /\
  network (snd run) = rest.
Proof.
  intros Hnet Hch Hans. cbv zeta.
  unfold wise_statement, bind, lift, requests_get, statement_request.
  rewrite Hnet. simpl. rewrite Hch. simpl. rewrite Hans. simpl. auto.
Qed.

Lemma unanswerable_challenge_is_not_retried_witness :
  let P := Sample.platform ∅ true (Ok PyNone) (Ok []) (fun _ => Ok [])
             (fun _ => Ok PyNone) in
  let run :=
    wise_statement P (PyInt 42) (PyInt 77) (PyStr "GBP") "2024-01-01Z" "2024-01-08Z"
      (Sample.world [Sample.gbp_account] []
         [Sample.rejected_response; Sample.approved_response (Ok Sample.statement)]) in
  fst run = Raise (Exn KeyError "TRANSFERWISE_PRIVATE_KEY") /\
  List.length (sent (snd run)) = 1 /\
  network (snd run) = [Sample.approved_response (Ok Sample.statement)].
Proof.
  cbv zeta.
  assert (Hans : answer_challenge
                   (Sample.platform ∅ true (Ok PyNone) (Ok []) (fun _ => Ok [])
                      (fun _ => Ok PyNone))
                   Sample.rejected_response
                   (client_required_headers
                      (Sample.platform ∅ true (Ok PyNone) (Ok []) (fun _ => Ok [])
                         (fun _ => Ok PyNone)))
                 = Raise (Exn KeyError "TRANSFERWISE_PRIVATE_KEY")) by reflexivity.
  destruct (unanswerable_challenge_is_not_retried _
              (PyInt 42) (PyInt 77) (PyStr "GBP") "2024-01-01Z" "2024-01-08Z"
              (Sample.world [Sample.gbp_account] []
                 [Sample.rejected_response;
                  Sample.approved_response (Ok Sample.statement)])
              _ _ _ eq_refl eq_refl Hans) as (Hf & Hs & Hn).
  split; [exact Hf|]. split; [rewrite Hs; reflexivity | exact Hn].
Defined.

(** ** Balance-credited handler: what it writes *)

Section Credit.

Context (P : Platform).

(** The import either commits and answers 204, or raises and commits
    nothing. *)
Lemma import_statement_cases b statement w :
  (exists es added w',
     statement_entries statement = Ok es /\
     import_statement P b statement w = (Ok ("", 204%Z), w') /\
     bank_transactions w' = bank_transactions w ++ session_new w ++ added /\
     session_new w' = [] /\
     bank_accounts w' = bank_accounts w /\
     sent w' = sent w /\
     dispatched w' = dispatched w /\
     Forall (fun t => exists e, In e es /\ row_of_entry b e t) added /\
     (autoflush P = true ->
      fresh_rows (bank_transactions w ++ session_new w) added))
  \/
  (exists e w',
     import_statement P b statement w = (Raise e, w') /\
     bank_transactions w' = bank_transactions w /\
     bank_accounts w' = bank_accounts w /\
     sent w' = sent w /\
     dispatched w' = dispatched w).
Proof.
  unfold import_statement, statement_entries, bind, lift.
  unfold lock_bank_account at 1.
  destruct (py_getattr statement "transactions") as [transactions|ex]; simpl;
    [|right; eexists _, _; repeat split].
  destruct (py_iter transactions) as [es|ex]; simpl;
    [|right; eexists _, _; repeat split].
  match goal with
  | |- context [reconcile P b es [] ?u] => set (l := u)
  end.
  pose proof (reconcile_only_session P b es [] l) as Hframe.
  destruct (reconcile P b es [] l) as [[txns|ex] r] eqn:Hr.
  - left. apply reconcile_added in Hr as (added & Hs & _ & Hf & Hfresh).
    destruct Hframe as (Ha & Ht & _ & _ & _ & Hsent & _ & Hd). subst l. simpl in *.
    exists es, added. eexists. split; [reflexivity|]. split; [reflexivity|].
    simpl. rewrite Ht, Hs, Ha, Hsent, Hd. repeat split; auto.
  - right. destruct Hframe as (Ha & Ht & _ & _ & _ & Hsent & _ & Hd). subst l.
    simpl in *. eexists _, _. split; [reflexivity|]. auto.
Qed.

(** Where the handler goes once the event names a profile, a group other
    than 0 and a currency, and an active account matches: it fetches the
    statement of the last seven days, and imports it or, when the fetch
    raises, answers 204. *)
Lemma wise_balance_credit_fetches event_type event w profile_id gid cur b :
  event_resource event "profile_id" = Ok profile_id ->
  is_none profile_id = false ->
  event_resource event "id" = Ok gid ->
  is_none gid = false ->
  py_eq_zero gid = false ->
  event_data event "currency" = Ok cur ->
  is_none cur = false ->
  List.find (bank_account_matches gid cur) (bank_accounts w) = Some b ->
  wise_balance_credit P event_type event w =
    match wise_statement P profile_id gid cur
            (isoformat P (clock w - 7 * 86400 * 1000000) ++ "Z")
            (isoformat P (clock w) ++ "Z")
            (snd (logger INFO
                    "Checking Wise details for borderless_account_id %s and currency %s"
                    w)) with
    | (Ok statement, u) => import_statement P b statement u
    | (Raise _, u) =>
        (Ok ("", 204%Z), snd (logger ERROR "Could not fetch statement" u))
    end.
Proof.
  intros Hpid Hsome Hgid Hgsome Hnz Hcur Hcsome Hfind.
  unfold wise_balance_credit, bind, lift.
  rewrite Hpid, Hsome, Hgid, Hgsome, Hnz, Hcur, Hcsome.
  unfold find_bank_account, datetime_now, try_except, bind, ret. simpl.
  rewrite Hfind. simpl.
  destruct (wise_statement P profile_id gid cur _ _ _) as [[statement|e] u];
    reflexivity.
Qed.

(** The three ways the handler ends: it answers 204 and leaves the tables
    alone, it raises and leaves the tables alone, or it ends as the import
    of a statement for an active account of the table. *)
Lemma wise_balance_credit_cases event_type event w :
  (exists w', wise_balance_credit P event_type event w = (Ok ("", 204%Z), w') /\
              same_tables w w')
  \/
  (exists e w', wise_balance_credit P event_type event w = (Raise e, w') /\
                same_tables w w')
  \/
  (exists b statement w0,
     In b (bank_accounts w) /\ active b = true /\
     fetched P (network w) = Ok statement /\
     wise_balance_credit P event_type event w = import_statement P b statement w0 /\
     same_tables w w0).
Proof.
  unfold same_tables.
  destruct (event_resource event "profile_id") as [pid|ex] eqn:Hpid.
  2:{ right; left. unfold wise_balance_credit, bind, lift. rewrite Hpid.
      eexists _, _. split; [reflexivity|]. auto. }
  destruct (is_none pid) eqn:Hsome.
  { right; left. unfold wise_balance_credit, bind, lift. rewrite Hpid, Hsome.
    eexists _, _. split; [reflexivity|]. simpl. auto. }
  destruct (event_resource event "id") as [gid|ex] eqn:Hgid.
  2:{ right; left. unfold wise_balance_credit, bind, lift. rewrite Hpid, Hsome, Hgid.
      eexists _, _. split; [reflexivity|]. auto. }
  destruct (is_none gid) eqn:Hgsome.
  { right; left. unfold wise_balance_credit, bind, lift.
    rewrite Hpid, Hsome, Hgid, Hgsome.
    eexists _, _. split; [reflexivity|]. simpl. auto. }
  destruct (py_eq_zero gid) eqn:Hnz.
  { left. unfold wise_balance_credit, bind, lift.
    rewrite Hpid, Hsome, Hgid, Hgsome, Hnz.
    eexists. split; [reflexivity|]. auto. }
  destruct (event_data event "currency") as [cur|ex] eqn:Hcur.
  2:{ right; left. unfold wise_balance_credit, bind, lift.
      rewrite Hpid, Hsome, Hgid, Hgsome, Hnz, Hcur.
      eexists _, _. split; [reflexivity|]. auto. }
  destruct (is_none cur) eqn:Hcsome.
  { right; left. unfold wise_balance_credit, bind, lift.
    rewrite Hpid, Hsome, Hgid, Hgsome, Hnz, Hcur, Hcsome.
    eexists _, _. split; [reflexivity|]. simpl. auto. }
  destruct (List.find (bank_account_matches gid cur) (bank_accounts w)) as [b|]
    eqn:Hfind.
  2:{ left. unfold wise_balance_credit, bind, lift.
      rewrite Hpid, Hsome, Hgid, Hgsome, Hnz, Hcur, Hcsome.
      unfold find_bank_account, logger, ret. simpl. rewrite Hfind. simpl.
      eexists. split; [reflexivity|]. simpl. auto. }
  rewrite (wise_balance_credit_fetches _ _ _ _ _ _ _
             Hpid Hsome Hgid Hgsome Hnz Hcur Hcsome Hfind).
  match goal with
  | |- context [wise_statement P pid gid cur ?a ?c ?u] =>
      pose proof (wise_statement_effects P pid gid cur a c u)
        as (_ & Ha & Ht & Hs & _ & _ & Hd);
      pose proof (wise_statement_fetched P pid gid cur a c u) as (Hfetched & _);
      destruct (wise_statement P pid gid cur a c u) as [[statement|e] u1]
  end; simpl in *.
  - right; right. apply find_some in Hfind as [Hin Hm].
    unfold bank_account_matches in Hm. apply andb_true_iff in Hm as [_ Hact].
    exists b, statement, u1. repeat split; auto.
  - left. eexists. split; [reflexivity|]. simpl. auto.
Qed.

End Credit.

Section CreditRows.

Context (P : Platform).

Lemma wise_balance_credit_added event_type event w :
  session_new w = [] ->
  exists added,
    bank_transactions (snd (wise_balance_credit P event_type event w))
      = bank_transactions w ++ added /\
    Forall (fun t =>
              exists b statement es e,
                In b (bank_accounts w) /\ active b = true /\
                fetched P (network w) = Ok statement /\
                statement_entries statement = Ok es /\
                In e es /\ row_of_entry b e t) added /\
    (autoflush P = true -> fresh_rows (bank_transactions w) added) /\
    (is_raise (fst (wise_balance_credit P event_type event w)) = true -> added = []).
Proof.
  intros Hsession.
  destruct (wise_balance_credit_cases P event_type event w)
    as [(w' & Hrun & _ & Ht & _)
       |[(e & w' & Hrun & _ & Ht & _)
        |(b & statement & w0 & Hin & Hact & Hfetched & Hrun & _ & Ht & Hs & _)]].
  - exists []. rewrite Hrun, app_nil_r. simpl. auto.
  - exists []. rewrite Hrun, app_nil_r. simpl. auto.
  - rewrite Hrun.
    destruct (import_statement_cases P b statement w0)
      as [(es & added & w' & Hes & Himp & Hrows & _ & _ & _ & _ & Hfrom & Hfresh)
         |(e & w' & Himp & Hrows & _)].
    + exists added. rewrite Himp. simpl.
      rewrite Hs, Hsession in Hrows, Hfresh. simpl in Hrows. rewrite app_nil_r in Hfresh.
      rewrite Ht in Hrows, Hfresh. split; [exact Hrows|]. split; [|split].
      * eapply Forall_impl; [exact Hfrom|]. simpl. intros t (x & Hx & Hrow).
        exists b, statement, es, x. auto 10.
      * exact Hfresh.
      * discriminate.
    + exists []. rewrite Himp, app_nil_r. simpl. rewrite Hrows, Ht. auto.
Qed.

End CreditRows.

(** X10. The handler only appends to the transactions table, and what it
    appends are rows of CREDIT entries of the fetched statement: each new
    row carries the id of an active account of the table and the posted
    date, the lower-cased detail type, the payment reference and the amount
    of one entry whose type is "CREDIT". *)
Theorem credit_rows_come_from_credit_entries
    (P : Platform) (event_type event : pyval) (w : World) :
  session_new w = [] ->
  exists added,
    bank_transactions (snd (wise_balance_credit P event_type event w))
      = bank_transactions w ++ added /\
    Forall (fun t =>
              str_lower (type t) = type t /\
              exists b statement es e,
                In b (bank_accounts w) /\ active b = true /\
                account_id t = id b /\
                fetched P (network w) = Ok statement /\
                statement_entries statement = Ok es /\
                In e es /\
                py_getattr e "type" = Ok (PyStr "CREDIT") /\
                credit_key e = Ok (Some (posted t, type t, payee t)) /\
                exists amt, py_getattr e "amount" = Ok amt /\
                            py_getattr amt "value" = Ok (amount t)) added.
Proof.
  intros Hsession.
  destruct (wise_balance_credit_added P event_type event w Hsession)
    as (added & Hrows & Hfrom & _).
  exists added. split; [exact Hrows|].
  eapply Forall_impl; [exact Hfrom|]. simpl.
  intros t (b & statement & es & e & Hin & Hact & Hf & Hes & He & Hkey & Hacct & Hamt).
  split; [eapply credit_key_lowered; exact Hkey|].
  exists b, statement, es, e. repeat split; auto.
  eapply credit_key_is_credit; exact Hkey.
Qed.

Lemma credit_rows_come_from_credit_entries_witness :
  let P := Sample.platform Sample.live_config true (Ok PyNone)
             (Ok []) (fun _ => Ok []) (fun _ => Ok PyNone) in
  let w := Sample.world [Sample.gbp_account] []
             [Sample.approved_response (Ok Sample.statement)] in
  exists added,
    bank_transactions
      (snd (wise_balance_credit P (PyStr "balances#credit")
              (Sample.credit_of 77 "GBP") w)) = added /\
    List.length added = 2.
Proof.
  cbv zeta.
  destruct (credit_rows_come_from_credit_entries
              (Sample.platform Sample.live_config true (Ok PyNone)
                 (Ok []) (fun _ => Ok []) (fun _ => Ok PyNone))
              (PyStr "balances#credit") (Sample.credit_of 77 "GBP")
              (Sample.world [Sample.gbp_account] []
                 [Sample.approved_response (Ok Sample.statement)])
              eq_refl) as (added & Hrows & _).
  exists added. split; [exact Hrows|].
  simpl in Hrows. rewrite <- Hrows. reflexivity.
Defined.

(** A detail type with a capital outside A-Z is stored in lower case as
    well. *)
Example latin1_detail_type_is_lowered :
  map type
    (bank_transactions
       (snd (wise_balance_credit
               (Sample.platform Sample.live_config true (Ok PyNone)
                  (Ok []) (fun _ => Ok []) (fun _ => Ok PyNone))
               (PyStr "balances#credit") (Sample.credit_of 77 "GBP")
               (Sample.world [Sample.gbp_account] []
                  [Sample.approved_response
                     (Ok (PyDict
                            [("transactions",
                               PyList [Sample.entry "CREDIT" "2024-01-01"
                                         (String "201"%char "COLE Transfer")
                                         "INV123" (PyInt 50)])]))]))))
  = [String "233"%char "cole transfer"].
Proof. reflexivity. Qed.

(** X11. With a session that flushes before it queries, the handler adds no
    row whose key (account, posted date, type, payee) matches a row that
    was there or a row it added before. *)
Theorem credit_handler_adds_no_duplicate
    (P : Platform) (event_type event : pyval) (w : World) :
  autoflush P = true ->
  session_new w = [] ->
  exists added,
    bank_transactions (snd (wise_balance_credit P event_type event w))
      = bank_transactions w ++ added /\
    fresh_rows (bank_transactions w) added.
Proof.
  intros Hflush Hsession.
  destruct (wise_balance_credit_added P event_type event w Hsession)
    as (added & Hrows & _ & Hfresh & _).
  exists added. auto.
Qed.

Lemma credit_handler_adds_no_duplicate_witness :
  let P := Sample.platform Sample.live_config true (Ok PyNone)
             (Ok []) (fun _ => Ok []) (fun _ => Ok PyNone) in
  let w := Sample.world [Sample.gbp_account] []
             [Sample.approved_response (Ok Sample.statement)] in
  exists added,
    bank_transactions
      (snd (wise_balance_credit P (PyStr "balances#credit")
              (Sample.credit_of 77 "GBP") w)) = added /\
    fresh_rows [] added /\
    map payee added = [PyStr "INV123"; PyStr "INV124"].
Proof.
  cbv zeta.
  destruct (credit_handler_adds_no_duplicate
              (Sample.platform Sample.live_config true (Ok PyNone)
                 (Ok []) (fun _ => Ok []) (fun _ => Ok PyNone))
              (PyStr "balances#credit") (Sample.credit_of 77 "GBP")
              (Sample.world [Sample.gbp_account] []
                 [Sample.approved_response (Ok Sample.statement)])
              eq_refl eq_refl) as (added & Hrows & Hfresh).
  exists added. split; [exact Hrows|]. split; [exact Hfresh|].
  simpl in Hrows. rewrite <- Hrows. reflexivity.
Defined.

(** Without the flush the same statement gives a row to each of its two
    equal credits: the rows added are not fresh. *)
Example unflushed_session_duplicates :
  let P := Sample.platform Sample.live_config false (Ok PyNone)
             (Ok []) (fun _ => Ok []) (fun _ => Ok PyNone) in
  map payee
    (bank_transactions
       (snd (wise_balance_credit P (PyStr "balances#credit")
               (Sample.credit_of 77 "GBP")
               (Sample.world [Sample.gbp_account] []
                  [Sample.approved_response (Ok Sample.statement)]))))
  = [PyStr "INV123"; PyStr "INV123"; PyStr "INV124"].
Proof. reflexivity. Qed.

(** X12. A handler run that raises commits nothing: the transactions table is
    the one it met.  The rows of a statement are written all together or
    not at all. *)
Theorem credit_handler_raise_writes_nothing
    (P : Platform) (event_type event : pyval) (w : World) :
  is_raise (fst (wise_balance_credit P event_type event w)) = true ->
  bank_transactions (snd (wise_balance_credit P event_type event w))
    = bank_transactions w /\
  bank_accounts (snd (wise_balance_credit P event_type event w)) = bank_accounts w.
Proof.
  intros Hraise.
  destruct (wise_balance_credit_cases P event_type event w)
    as [(w' & Hrun & Ha & Ht & _)
       |[(e & w' & Hrun & Ha & Ht & _)
        |(b & statement & w0 & _ & _ & _ & Hrun & Ha & Ht & _)]].
  - rewrite Hrun in *. discriminate Hraise.
  - rewrite Hrun. auto.
  - rewrite Hrun in *.
    destruct (import_statement_cases P b statement w0)
      as [(es & added & w' & _ & Himp & _)
         |(e & w' & Himp & Hrows & Haccts & _)].
    + rewrite Himp in Hraise. discriminate Hraise.
    + rewrite Himp. simpl. split; congruence.
Qed.

Lemma credit_handler_raise_writes_nothing_witness :
  let P := Sample.platform Sample.live_config true (Ok PyNone)
             (Ok []) (fun _ => Ok []) (fun _ => Ok PyNone) in
  let run :=
    wise_balance_credit P (PyStr "balances#credit") (Sample.credit_of 77 "GBP")
      (Sample.world [Sample.gbp_account] []
         [Sample.approved_response (Ok Sample.broken_statement)]) in
  fst run = Raise (Exn AttributeError "details") /\
  List.length (session_new (snd run)) = 1 /\
  bank_transactions (snd run) = [].
Proof.
  cbv zeta. split; [reflexivity|]. split; [reflexivity|].
  apply (credit_handler_raise_writes_nothing
           (Sample.platform Sample.live_config true (Ok PyNone)
              (Ok []) (fun _ => Ok []) (fun _ => Ok PyNone))
           (PyStr "balances#credit") (Sample.credit_of 77 "GBP")
           (Sample.world [Sample.gbp_account] []
              [Sample.approved_response (Ok Sample.broken_statement)])).
  reflexivity.
Defined.

(** ** Balance-credited handler: its answers *)

(** X13. An event that lacks the profile id, or has one and lacks the group
    id, or has both (the group id not 0) and lacks the currency, is
    answered with [abort(400)]; nothing but the log changes. *)
Theorem missing_field_is_400
    (P : Platform) (event_type event : pyval) (w : World) :
  event_resource event "profile_id" = Ok PyNone \/
  (exists profile_id,
     event_resource event "profile_id" = Ok profile_id /\
     is_none profile_id = false /\
     (event_resource event "id" = Ok PyNone \/
      exists gid,
        event_resource event "id" = Ok gid /\ is_none gid = false /\
        py_eq_zero gid = false /\
        event_data event "currency" = Ok PyNone)) ->
  fst (wise_balance_credit P event_type event w) = Raise (Exn (HTTPException 400) "") /\
  untouched w (snd (wise_balance_credit P event_type event w)).
Proof.
  unfold untouched, wise_balance_credit, bind, lift.
  intros [Hpid | (pid & Hpid & Hsome & [Hgid | (gid & Hgid & Hgsome & Hnz & Hcur)])].
  - rewrite Hpid. simpl. repeat split.
  - rewrite Hpid, Hsome, Hgid. simpl. repeat split.
  - rewrite Hpid, Hsome, Hgid, Hgsome, Hnz, Hcur. simpl. repeat split.
Qed.

Lemma missing_field_is_400_witness :
  let P := Sample.platform Sample.live_config true (Ok PyNone)
             (Ok []) (fun _ => Ok []) (fun _ => Ok PyNone) in
  let answer missing :=
    response_status
      (fst (wise_balance_credit P (PyStr "balances#credit")
              (Sample.credit_without missing)
              (Sample.world [Sample.gbp_account] [] []))) in
  answer "profile_id" = 400%Z /\ answer "id" = 400%Z /\ answer "currency" = 400%Z.
Proof.
  cbv zeta.
  pose proof (missing_field_is_400
                (Sample.platform Sample.live_config true (Ok PyNone)
                   (Ok []) (fun _ => Ok []) (fun _ => Ok PyNone))
                (PyStr "balances#credit")) as H.
  split; [|split].
  - destruct (H (Sample.credit_without "profile_id")
                (Sample.world [Sample.gbp_account] [] [])) as [-> _];
      [left; reflexivity | reflexivity].
  - destruct (H (Sample.credit_without "id")
                (Sample.world [Sample.gbp_account] [] [])) as [-> _];
      [right; exists (PyInt 42); repeat split; left; reflexivity | reflexivity].
  - destruct (H (Sample.credit_without "currency")
                (Sample.world [Sample.gbp_account] [] [])) as [-> _];
      [right; exists (PyInt 42); repeat split; right; exists (PyInt 77);
       repeat split
      | reflexivity].
Defined.

(** X14. When the statement cannot be fetched (the call raises for whatever
    reason) the handler answers 204 all the same: it takes no lock, adds
    nothing to the session and leaves both tables as they were. *)
Theorem fetch_failure_is_absorbed
    (P : Platform) (event_type event profile_id gid cur : pyval)
    (b : BankAccount) (e : exn) (w : World) :
  event_resource event "profile_id" = Ok profile_id ->
  is_none profile_id = false ->
  event_resource event "id" = Ok gid ->
  is_none gid = false ->
  py_eq_zero gid = false ->
  event_data event "currency" = Ok cur ->
  is_none cur = false ->
  List.find (bank_account_matches gid cur) (bank_accounts w) = Some b ->
  fetched P (network w) = Raise e ->
  let run := wise_balance_credit P event_type event w in
  fst run = Ok ("", 204%Z) /\
  bank_transactions (snd run) = bank_transactions w /\
  session_new (snd run) = session_new w /\
  bank_accounts (snd run) = bank_accounts w /\
  row_locks (snd run) = row_locks w.
Proof.
  intros Hpid Hsome Hgid Hgsome Hnz Hcur Hcsome Hfind Hfetch. cbv zeta.
  rewrite (wise_balance_credit_fetches P _ _ _ _ _ _ _
             Hpid Hsome Hgid Hgsome Hnz Hcur Hcsome Hfind).
  match goal with
  | |- context [wise_statement P profile_id gid cur ?a ?c ?u] =>
      pose proof (wise_statement_effects P profile_id gid cur a c u)
        as (_ & Ha & Ht & Hs & Hl & _);
      pose proof (wise_statement_fetched P profile_id gid cur a c u) as (Hf & _);
      destruct (wise_statement P profile_id gid cur a c u) as [[statement|ex] u1]
  end; simpl in *.
  - rewrite Hfetch in Hf. discriminate Hf.
  - auto.
Qed.

Lemma fetch_failure_is_absorbed_witness :
  let P := Sample.platform Sample.live_config true (Ok PyNone)
             (Ok []) (fun _ => Ok []) (fun _ => Ok PyNone) in
  let unavailable :=
    {| status_code := 503; headers := []; json := Raise (Exn ValueError "") |} in
  let run :=
    wise_balance_credit P (PyStr "balances#credit") (Sample.credit_of 77 "GBP")
      (Sample.world [Sample.gbp_account] [] [unavailable]) in
  fst run = Ok ("", 204%Z) /\ bank_transactions (snd run) = [] /\
  List.length (sent (snd run)) = 1.
Proof.
  cbv zeta.
  destruct (fetch_failure_is_absorbed
              (Sample.platform Sample.live_config true (Ok PyNone)
                 (Ok []) (fun _ => Ok []) (fun _ => Ok PyNone))
              (PyStr "balances#credit") (Sample.credit_of 77 "GBP")
              (PyInt 42) (PyInt 77) (PyStr "GBP") Sample.gbp_account
              (Exn Exception "Error fetching statement")
              (Sample.world [Sample.gbp_account] []
                 [{| status_code := 503; headers := [];
                     json := Raise (Exn ValueError "") |}])
              eq_refl eq_refl eq_refl eq_refl eq_refl eq_refl eq_refl eq_refl eq_refl)
    as (Hf & Ht & _).
  split; [exact Hf|]. split; [exact Ht | reflexivity].
Defined.

(** X15. The statement the handler asks for is the one of the event's profile,
    account group and currency over the seven days that end at the time
    of the request: both instants in ISO format followed by "Z". *)
Theorem credit_handler_asks_for_last_seven_days
    (P : Platform) (event_type event profile_id gid cur : pyval)
    (b : BankAccount) (w : World) :
  event_resource event "profile_id" = Ok profile_id ->
  is_none profile_id = false ->
  event_resource event "id" = Ok gid ->
  is_none gid = false ->
  py_eq_zero gid = false ->
  event_data event "currency" = Ok cur ->
  is_none cur = false ->
  List.find (bank_account_matches gid cur) (bank_accounts w) = Some b ->
  exists more,
    sent (snd (wise_balance_credit P event_type event w)) =
      sent w ++
      {| url := (client_domain P ++ "/v3/profiles/" ++ py_str P profile_id
                   ++ "/borderless-accounts/" ++ py_str P gid
                   ++ "/statement.json")%string;
         params :=
           [("currency", cur);
            ("intervalStart",
              PyStr (isoformat P (clock w - 604800000000) ++ "Z"));
            ("intervalEnd", PyStr (isoformat P (clock w) ++ "Z"))];
         out_headers := client_required_headers P |} :: more /\
    (List.length more <= 1)%nat.
Proof.
  intros Hpid Hsome Hgid Hgsome Hnz Hcur Hcsome Hfind.
  rewrite (wise_balance_credit_fetches P _ _ _ _ _ _ _
             Hpid Hsome Hgid Hgsome Hnz Hcur Hcsome Hfind).
  match goal with
  | |- context [wise_statement P profile_id gid cur ?a ?c ?u] =>
      pose proof (wise_statement_effects P profile_id gid cur a c u)
        as ((more & Hsent & Hlen) & _);
      destruct (wise_statement P profile_id gid cur a c u) as [[statement|ex] u1]
  end; simpl in *.
  - exists more. split; [|exact Hlen].
    destruct (import_statement_cases P b statement u1)
      as [(es & added & w' & _ & Himp & _ & _ & _ & Hs & _)
         |(e & w' & Himp & _ & _ & Hs & _)];
      rewrite Himp; simpl; rewrite Hs, Hsent; reflexivity.
  - exists more. split; [|exact Hlen]. rewrite Hsent. reflexivity.
Qed.

Lemma credit_handler_asks_for_last_seven_days_witness :
  let P := Sample.platform Sample.live_config true (Ok PyNone)
             (Ok []) (fun _ => Ok []) (fun _ => Ok PyNone) in
  let run :=
    wise_balance_credit P (PyStr "balances#credit") (Sample.credit_of 77 "GBP")
      (Sample.world [Sample.gbp_account] []
         [Sample.approved_response (Ok Sample.statement)]) in
  map params (sent (snd run)) =
    [[("currency", PyStr "GBP");
      ("intervalStart", PyStr "1704067200000000Z");
      ("intervalEnd", PyStr "1704672000000000Z")]] /\
  map url (sent (snd run)) =
    ["https://api.transferwise.com/v3/profiles/42/borderless-accounts/77/statement.json"].
Proof.
  cbv zeta.
  destruct (credit_handler_asks_for_last_seven_days
              (Sample.platform Sample.live_config true (Ok PyNone)
                 (Ok []) (fun _ => Ok []) (fun _ => Ok PyNone))
              (PyStr "balances#credit") (Sample.credit_of 77 "GBP")
              (PyInt 42) (PyInt 77) (PyStr "GBP") Sample.gbp_account
              (Sample.world [Sample.gbp_account] []
                 [Sample.approved_response (Ok Sample.statement)])
              eq_refl eq_refl eq_refl eq_refl eq_refl eq_refl eq_refl eq_refl)
    as (more & Hsent & Hlen).
  split; reflexivity.
Defined.

(** The handler never answers anything but 204 when it returns. *)
Lemma wise_balance_credit_returns_204 P event_type event w r :
  fst (wise_balance_credit P event_type event w) = Ok r -> r = ("", 204%Z).
Proof.
  destruct (wise_balance_credit_cases P event_type event w)
    as [(w' & Hrun & _)
       |[(e & w' & Hrun & _)
        |(b & statement & w0 & _ & _ & _ & Hrun & _)]];
    rewrite Hrun.
  - simpl. congruence.
  - simpl. discriminate.
  - destruct (import_statement_cases P b statement w0)
      as [(es & added & w' & _ & Himp & _)|(e & w' & Himp & _)];
      rewrite Himp; simpl; [congruence | discriminate].
Qed.

(** ** Webhook receiver: event types and statuses *)

Lemma webhook_handlers_other P event_type :
  py_eq_str event_type "balances#credit" = false ->
  registry_get (webhook_handlers P) event_type = Raise (Exn KeyError "event_type") \/
  registry_get (webhook_handlers P) event_type = Raise (Exn TypeError "unhashable type").
Proof.
  unfold webhook_handlers. intros H.
  destruct event_type as [| b | z | x | s | l | d]; try (left; reflexivity);
    try (right; reflexivity).
  simpl in H. left.
  cbn -[String.eqb]. rewrite String.eqb_sym, H. reflexivity.
Qed.

(** X6. An authentic request with the supported schema version whose event
    type is anything but the string "balances#credit" (another string, a
    missing field, a list) is answered with 500 by the module's registry;
    no handler is called and nothing but the log changes. *)
Theorem unknown_event_type_is_500
    (P : Platform) (request : Request) (body event_type : pyval) (w : World) :
  authentic P request = true ->
  request_json request = Ok body ->
  py_get body "schema_version" PyNone = Ok (PyStr "2.0.0") ->
  py_get body "event_type" PyNone = Ok event_type ->
  py_eq_str event_type "balances#credit" = false ->
  response_status (fst (wise_webhook P (webhook_handlers P) request w)) = 500%Z /\
  untouched w (snd (wise_webhook P (webhook_handlers P) request w)).
Proof.
  intros Hauth Hjson Hschema Htype Hother.
  destruct (authentic_true _ _ Hauth) as (sg & dec & body' & Hsig & Hdec & Hj & Hn & Hv).
  rewrite Hjson in Hj. injection Hj as <-.
  pose proof (webhook_handlers_other P event_type Hother) as Hreg.
  set (hs := webhook_handlers P) in *. clearbody hs.
  unfold untouched, wise_webhook, bind, try_except, lift, logger, ret, abort, raise.
  simpl. rewrite Hsig, Hdec, Hjson, Hn. simpl. rewrite Hv. simpl.
  rewrite Hschema. simpl. rewrite Htype. simpl.
  destruct Hreg as [-> | ->]; simpl; repeat split.
Qed.

Lemma unknown_event_type_is_500_witness :
  let P := Sample.platform Sample.live_config true (Ok PyNone)
             (Ok []) (fun _ => Ok []) (fun _ => Ok PyNone) in
  let body := PyDict [("event_type", PyStr "transfers#state-change");
                      ("schema_version", PyStr "2.0.0")] in
  response_status
    (fst (wise_webhook P (webhook_handlers P) (Sample.delivery (Ok body))
            (Sample.world [Sample.gbp_account] [] []))) = 500%Z.
Proof.
  cbv zeta.
  apply (unknown_event_type_is_500
           (Sample.platform Sample.live_config true (Ok PyNone)
              (Ok []) (fun _ => Ok []) (fun _ => Ok PyNone))
           _ (PyDict [("event_type", PyStr "transfers#state-change");
                      ("schema_version", PyStr "2.0.0")])
           (PyStr "transfers#state-change"));
    reflexivity.
Defined.

Lemma authentic_request_is_dispatched_witness :
  let P := Sample.platform Sample.live_config true (Ok PyNone)
             (Ok []) (fun _ => Ok []) (fun _ => Ok PyNone) in
  let run := wise_webhook P (webhook_handlers P)
               (Sample.delivery (Ok Sample.sentinel_event))
               (Sample.world [Sample.gbp_account] [] []) in
  fst run = Ok ("", 204%Z) /\ dispatched (snd run) = [PyStr "balances#credit"].
Proof.
  cbv zeta.
  destruct (authentic_request_is_dispatched
              (Sample.platform Sample.live_config true (Ok PyNone)
                 (Ok []) (fun _ => Ok []) (fun _ => Ok PyNone))
              (webhook_handlers
                 (Sample.platform Sample.live_config true (Ok PyNone)
                    (Ok []) (fun _ => Ok []) (fun _ => Ok PyNone)))
              (Sample.delivery (Ok Sample.sentinel_event))
              Sample.sentinel_event (PyStr "balances#credit")
              (wise_balance_credit
                 (Sample.platform Sample.live_config true (Ok PyNone)
                    (Ok []) (fun _ => Ok []) (fun _ => Ok PyNone)))
              (Sample.world [Sample.gbp_account] [] [])
              eq_refl eq_refl eq_refl eq_refl eq_refl)
    as (w1 & Hat & Hrun).
  rewrite (Hrun ("", 204%Z) eq_refl). split; [reflexivity|].
  simpl. destruct Hat as (_ & _ & _ & _ & _ & _ & _ & Hd). exact Hd.
Defined.


Lemma py_get_raises o key default e :
  py_get o key default = Raise e -> e = Exn AttributeError "get".
Proof. destruct o; simpl; congruence. Qed.

Lemma webhook_handlers_found P event_type h :
  registry_get (webhook_handlers P) event_type = Ok h -> h = wise_balance_credit P.
Proof.
  unfold webhook_handlers.
  destruct event_type as [| b | z | x | s | l | d]; cbn -[String.eqb];
    try discriminate.
  destruct (String.eqb "balances#credit" s); [congruence | discriminate].
Qed.

Lemma webhook_handlers_raises P event_type e :
  registry_get (webhook_handlers P) event_type = Raise e ->
  e = Exn KeyError "event_type" \/ e = Exn TypeError "unhashable type".
Proof.
  unfold webhook_handlers.
  destruct event_type as [| b | z | x | s | l | d]; cbn -[String.eqb];
    try (intros [= <-]; auto).
  destruct (String.eqb "balances#credit" s); [discriminate | intros [= <-]; auto].
Qed.

(** X7. Whatever the request, the receiver with the module's registry answers
    with one of the statuses 204, 400 and 500. *)
Theorem receiver_answers_204_400_or_500
    (P : Platform) (request : Request) (w : World) :
  let status :=
    response_status (fst (wise_webhook P (webhook_handlers P) request w)) in
  status = 204%Z \/ status = 400%Z \/ status = 500%Z.
Proof.
  cbv zeta.
  pose proof (webhook_handlers_found P) as Hfound.
  pose proof (webhook_handlers_raises P) as Hraises.
  set (hs := webhook_handlers P) in *. clearbody hs.
  unfold wise_webhook, bind, try_except, lift, logger, ret, record_dispatch,
    abort, raise.
  simpl.
  destruct (header_get (request_headers request) "X-Signature") as [sg|];
    simpl; [|auto].
  destruct (b64decode P sg) as [dec|]; simpl; [|auto].
  destruct (request_json request) as [body|]; simpl; [|auto].
  destruct (is_none body); simpl; [auto|].
  destruct (verify_signature P (request_data request) sg); simpl; [|auto].
  destruct (py_get body "schema_version" PyNone) as [sv|e] eqn:Hschema; simpl.
  2:{ apply py_get_raises in Hschema. subst e. auto. }
  destruct (py_eq_str sv "2.0.0"); simpl; [|auto].
  destruct (py_get body "event_type" PyNone) as [et|e] eqn:Htype; simpl.
  2:{ apply py_get_raises in Htype. subst e. auto. }
  destruct (registry_get hs et) as [h|e] eqn:Hreg; simpl.
  2:{ destruct (Hraises _ _ Hreg) as [-> | ->]; simpl; auto. }
  rewrite (Hfound _ _ Hreg).
  match goal with
  | |- context [wise_balance_credit P et body ?u] =>
      pose proof (wise_balance_credit_returns_204 P et body u) as Hr;
      destruct (wise_balance_credit P et body u) as [[r|e] u']
  end; simpl in *.
  - rewrite (Hr r eq_refl). auto.
  - auto.
Qed.

(** ** Business profile: the other outcomes *)

Lemma filter_business_typed listed :
  Forall (fun p => exists ty, py_getattr p "type" = Ok ty) listed ->
  filter_business listed = Ok (List.filter is_business listed).
Proof.
  induction 1 as [|p rest [ty Hty] _ IH]; simpl; [reflexivity|].
  unfold is_business. rewrite Hty, IH. simpl.
  destruct (py_eq_str ty "business"); reflexivity.
Qed.

(** X16. With no profile id configured, and every listed profile carrying a
    type, resolution goes by the number of listed profiles whose type is
    "business": none is an IndexError, one gives that profile's id
    attribute, more than one is the "Multiple business profiles found"
    exception. *)
Theorem business_profile_by_listing (P : Platform) (listed : list pyval) :
  py_truthy (configured_profile P) = false ->
  profiles_list P "business" = Ok listed ->
  Forall (fun p => exists ty, py_getattr p "type" = Ok ty) listed ->
  wise_business_profile P =
    match List.filter is_business listed with
    | [] => Raise (Exn IndexError "list index out of range")
    | [p] => py_getattr p "id"
    | _ :: _ :: _ => Raise (Exn Exception "Multiple business profiles found")
    end.
Proof.
  intros Hcfg Hlist Htyped. unfold wise_business_profile.
  unfold configured_profile in Hcfg. rewrite Hcfg, Hlist. simpl.
  rewrite (filter_business_typed _ Htyped). simpl.
  destruct (List.filter is_business listed) as [|p [|q rest]]; reflexivity.
Qed.

Lemma business_profile_by_listing_witness :
  let P listed := Sample.platform Sample.live_config true (Ok PyNone) (Ok listed)
                    (fun _ => Ok []) (fun _ => Ok PyNone) in
  wise_business_profile
    (P [Sample.personal_profile; Sample.business_profile 42]) = Ok (PyInt 42) /\
  wise_business_profile
    (P [Sample.business_profile 42; Sample.personal_profile;
        Sample.business_profile 43])
  = Raise (Exn Exception "Multiple business profiles found").
Proof.
  cbv zeta. split.
  - rewrite (business_profile_by_listing _
               [Sample.personal_profile; Sample.business_profile 42]);
      [reflexivity | reflexivity | reflexivity |].
    repeat constructor; eexists; reflexivity.
  - rewrite (business_profile_by_listing _
               [Sample.business_profile 42; Sample.personal_profile;
                Sample.business_profile 43]);
      [reflexivity | reflexivity | reflexivity |].
    repeat constructor; eexists; reflexivity.
Defined.

(** X17. A listed entry without a type attribute makes resolution raise the
    AttributeError of [p.type], whatever else the listing holds. *)
Theorem untyped_profile_is_attribute_error
    (P : Platform) (before after : list pyval) (p : pyval) (e : exn) :
  py_truthy (configured_profile P) = false ->
  profiles_list P "business" = Ok (before ++ p :: after) ->
  Forall (fun q => exists ty, py_getattr q "type" = Ok ty) before ->
  py_getattr p "type" = Raise e ->
  wise_business_profile P = Raise e.
Proof.
  intros Hcfg Hlist Htyped Hp. unfold wise_business_profile.
  unfold configured_profile in Hcfg. rewrite Hcfg, Hlist. simpl.
  assert (Hf : filter_business (before ++ p :: after) = Raise e).
  { clear Hlist. induction Htyped as [|q rest [ty Hty] _ IH]; simpl.
    - rewrite Hp. reflexivity.
    - rewrite Hty. simpl. rewrite IH. reflexivity. }
  rewrite Hf. reflexivity.
Qed.

Lemma untyped_profile_is_attribute_error_witness :
  wise_business_profile
    (Sample.platform Sample.live_config true (Ok PyNone)
       (Ok [Sample.business_profile 42; PyDict [("id", PyInt 7)]])
       (fun _ => Ok []) (fun _ => Ok PyNone))
  = Raise (Exn AttributeError "type").
Proof.
  apply (untyped_profile_is_attribute_error _ [Sample.business_profile 42] []
           (PyDict [("id", PyInt 7)]));
    try reflexivity.
  repeat constructor. eexists; reflexivity.
Defined.

(** What [int()] makes of the strings a profile id may be configured
    as: white space around the digits and an underscore between two
    digits are read over; an underscore elsewhere, white space inside and
    a sign apart from the digits are refused. *)
Example py_int_of_strings :
  map (fun s => py_int (PyStr s))
      ["4242"; " 4242 "; "4_242"; "+4242"; "-7"; "007";
       String "009"%char (String "160"%char "42")]
  = [Ok 4242%Z; Ok 4242%Z; Ok 4242%Z; Ok 4242%Z; Ok (-7)%Z; Ok 7%Z; Ok 42%Z]
  /\
  Forall (fun s => py_int (PyStr s)
                   = Raise (Exn ValueError "invalid literal for int()"))
         [""; " "; "4 242"; "4__242"; "_4242"; "4242_"; "+ 4242"; "42a"; "+"].
Proof. split; [reflexivity | repeat constructor]. Qed.

(** White space before the literal does not change what [int()] reads. *)
Lemma parse_int_lstrip c s :
  is_space c = true -> parse_int (String c s) = parse_int s.
Proof. unfold parse_int. simpl. intros ->. reflexivity. Qed.

(** X18. A configured profile id is used as it is, the profile listing is not
    looked at: the id is what [int()] makes of the configured value, and
    the profile has to own a borderless account, or resolution raises.  A
    value [int()] refuses, or a failing listing of the borderless
    accounts, ends resolution in that exception. *)
Theorem configured_profile_is_used (P : Platform) :
  py_truthy (configured_profile P) = true ->
  (forall n accounts,
     py_int (configured_profile P) = Ok n ->
     borderless_accounts_list P (PyInt n) = Ok accounts ->
     wise_business_profile P =
       match accounts with
       | [] => Raise (Exn Exception "Provided TRANSFERWISE_PROFILE_ID has no accoutns")
       | _ :: _ => Ok (PyInt n)
       end)
  /\
  (forall e,
     py_int (configured_profile P) = Raise e ->
     wise_business_profile P = Raise e)
  /\
  (forall n e,
     py_int (configured_profile P) = Ok n ->
     borderless_accounts_list P (PyInt n) = Raise e ->
     wise_business_profile P = Raise e).
Proof.
  intros Hcfg. unfold configured_profile in *. unfold wise_business_profile.
  rewrite Hcfg. split; [|split].
  - intros n accounts -> Hacc. simpl. rewrite Hacc. simpl.
    destruct accounts; reflexivity.
  - intros e ->. reflexivity.
  - intros n e -> Hacc. simpl. rewrite Hacc. reflexivity.
Qed.

Lemma configured_profile_is_used_witness :
  let padded := <["TRANSFERWISE_PROFILE_ID" := PyStr " 4242 "]> Sample.live_config in
  let grouped := <["TRANSFERWISE_PROFILE_ID" := PyStr "4_242"]> Sample.live_config in
  let broken := <["TRANSFERWISE_PROFILE_ID" := PyStr "42a"]> Sample.live_config in
  wise_business_profile
    (Sample.platform padded true (Ok PyNone)
       (Raise (Exn ConnectionError "profiles"))
       (fun _ => Ok [Sample.borderless_account]) (fun _ => Ok PyNone))
  = Ok (PyInt 4242) /\
  wise_business_profile
    (Sample.platform grouped true (Ok PyNone)
       (Raise (Exn ConnectionError "profiles"))
       (fun _ => Ok []) (fun _ => Ok PyNone))
  = Raise (Exn Exception "Provided TRANSFERWISE_PROFILE_ID has no accoutns") /\
  wise_business_profile
    (Sample.platform broken true (Ok PyNone)
       (Raise (Exn ConnectionError "profiles"))
       (fun _ => Ok [Sample.borderless_account]) (fun _ => Ok PyNone))
  = Raise (Exn ValueError "invalid literal for int()").
Proof.
  cbv zeta. split; [|split].
  - assert (Ht : py_truthy
               (configured_profile
                  (Sample.platform
                     (<["TRANSFERWISE_PROFILE_ID" := PyStr " 4242 "]> Sample.live_config)
                     true (Ok PyNone) (Raise (Exn ConnectionError "profiles"))
                     (fun _ => Ok [Sample.borderless_account]) (fun _ => Ok PyNone)))
             = true) by reflexivity.
    destruct (configured_profile_is_used _ Ht) as (Hused & _ & _).
    rewrite (Hused 4242%Z [Sample.borderless_account]); reflexivity.
  - assert (Ht : py_truthy
               (configured_profile
                  (Sample.platform
                     (<["TRANSFERWISE_PROFILE_ID" := PyStr "4_242"]> Sample.live_config)
                     true (Ok PyNone) (Raise (Exn ConnectionError "profiles"))
                     (fun _ => Ok []) (fun _ => Ok PyNone)))
             = true) by reflexivity.
    destruct (configured_profile_is_used _ Ht) as (Hused & _ & _).
    rewrite (Hused 4242%Z []); reflexivity.
  - assert (Ht : py_truthy
               (configured_profile
                  (Sample.platform
                     (<["TRANSFERWISE_PROFILE_ID" := PyStr "42a"]> Sample.live_config)
                     true (Ok PyNone) (Raise (Exn ConnectionError "profiles"))
                     (fun _ => Ok [Sample.borderless_account]) (fun _ => Ok PyNone)))
             = true) by reflexivity.
    destruct (configured_profile_is_used _ Ht) as (_ & Hraise & _).
    apply Hraise. reflexivity.
Defined.

(** ** Account discovery: skipped balances, addresses, exceptions *)

Lemma lacks_bank_details_skipped borderless_account account :
  lacks_bank_details account ->
  collect_balance borderless_account account = Ok None.
Proof.
  unfold lacks_bank_details, collect_balance, has_bank_details.
  destruct (py_getattr account "bankDetails") as [bd|[k m]] eqn:Ebd; simpl.
  - intros [Hf | Ha].
    + rewrite Hf. reflexivity.
    + destruct (py_truthy bd); simpl; [|reflexivity].
      destruct (py_getattr bd "bankAddress") as [ba|[k m]] eqn:Eba; simpl.
      * rewrite Ha. reflexivity.
      * destruct bd; simpl in Eba; try (injection Eba as <- <-; reflexivity).
        destruct (assoc_get "bankAddress" d); [discriminate|].
        injection Eba as <- <-. reflexivity.
  - intros _. destruct account; simpl in Ebd; try (injection Ebd as <- <-; reflexivity).
    destruct (assoc_get "bankDetails" d); [discriminate|].
    injection Ebd as <- <-. reflexivity.
Qed.

(** X19. A balance without bank details or without a bank address yields no
    account and raises nothing: the run is the one over the other
    balances. *)
Theorem balances_without_bank_details_are_skipped
    (borderless_account account : pyval) (before after : list pyval) :
  lacks_bank_details account ->
  collect_balances borderless_account (before ++ account :: after)
  = collect_balances borderless_account (before ++ after).
Proof.
  intros Hlacks. induction before as [|a rest IH]; simpl.
  - rewrite (lacks_bank_details_skipped _ _ Hlacks). reflexivity.
  - rewrite IH. reflexivity.
Qed.

Lemma balances_without_bank_details_are_skipped_witness :
  let unfunded := PyDict [("currency", PyStr "USD"); ("bankDetails", PyNone)] in
  map acct_id
    (fst (collect_balances Sample.borderless_account
            ([Sample.plain_balance] ++ unfunded :: [Sample.euro_balance])))
  = [PyStr "12345678"; PyNone].
Proof.
  cbv zeta.
  rewrite (balances_without_bank_details_are_skipped Sample.borderless_account
             (PyDict [("currency", PyStr "USD"); ("bankDetails", PyNone)])
             [Sample.plain_balance] [Sample.euro_balance]);
    [reflexivity|].
  unfold lacks_bank_details. simpl. tauto.
Defined.

(** A borderless account whose balances all lack bank details yields
    nothing and raises nothing. *)
Lemma no_bank_details_no_accounts
    (borderless_account balances : pyval) (accounts : list pyval) :
  py_getattr borderless_account "balances" = Ok balances ->
  py_iter balances = Ok accounts ->
  Forall lacks_bank_details accounts ->
  _collect_bank_accounts borderless_account = ([], None).
Proof.
  intros Hb Hi Hall. unfold _collect_bank_accounts. rewrite Hb, Hi.
  clear Hb Hi. induction Hall as [|a rest Ha _ IH]; simpl; [reflexivity|].
  rewrite (lacks_bank_details_skipped _ _ Ha). exact IH.
Qed.

Example no_bank_details_no_accounts_sample :
  _collect_bank_accounts
    (PyDict [("id", PyInt 77);
             ("balances",
               PyList [PyDict [("currency", PyStr "USD")];
                       PyDict [("currency", PyStr "AUD"); ("bankDetails", PyNone)];
                       PyDict [("currency", PyStr "CAD");
                               ("bankDetails", PyDict [("bankName", PyStr "Wise")])]])])
  = ([], None).
Proof.
  eapply no_bank_details_no_accounts; [reflexivity | reflexivity |].
  repeat (constructor; [unfold lacks_bank_details; simpl; tauto|]).
  constructor.
Defined.

Lemma str_append_assoc (a b c : string) :
  ((a ++ b) ++ c = a ++ (b ++ c))%string.
Proof.
  induction a as [|x a IH]; [reflexivity|].
  change (String x ((a ++ b) ++ c) = String x (a ++ (b ++ c)))%string.
  f_equal. exact IH.
Qed.

Lemma str_append_empty (a : string) : (a ++ "" = a)%string.
Proof.
  induction a as [|x a IH]; [reflexivity|].
  change (String x (a ++ "") = String x a)%string. f_equal. exact IH.
Qed.

(** X20. The address of a discovered account is the first address line, the
    city followed by a space and the post code, and the country, joined by
    a comma and a space; a post code that is None or empty leaves the
    space after the city. *)
Theorem bank_address_format (bankAddress postCode : pyval)
    (line city country : string) :
  py_getattr bankAddress "addressFirstLine" = Ok (PyStr line) ->
  py_getattr bankAddress "city" = Ok (PyStr city) ->
  py_getattr bankAddress "postCode" = Ok postCode ->
  py_getattr bankAddress "country" = Ok (PyStr country) ->
  (postCode = PyNone \/ exists code, postCode = PyStr code) ->
  bank_address bankAddress =
    Ok (line ++ ", " ++ city ++ " "
          ++ match postCode with PyStr code => code | _ => "" end
          ++ ", " ++ country)%string.
Proof.
  intros Hl Hc Hp Hn Hcode. unfold bank_address.
  rewrite Hl, Hc, Hp, Hn. simpl.
  assert (Hjoin : forall code,
             py_join ", " [PyStr line; PyStr ((city ++ " ") ++ code); PyStr country]
             = Ok (line ++ ", " ++ city ++ " " ++ code ++ ", " ++ country)%string).
  { intros code. unfold py_join. simpl. rewrite !str_append_assoc. reflexivity. }
  destruct Hcode as [-> | [code ->]]; simpl.
  - apply Hjoin.
  - destruct (String.eqb code "") eqn:E; simpl.
    + apply String.eqb_eq in E. subst. apply Hjoin.
    + apply Hjoin.
Qed.

Lemma bank_address_format_witness :
  bank_address
    (PyDict [("addressFirstLine", PyStr "Avenue Louise 54");
             ("city", PyStr "Brussels");
             ("postCode", PyNone);
             ("country", PyStr "Belgium")])
  = Ok "Avenue Louise 54, Brussels , Belgium".
Proof.
  rewrite (bank_address_format _ PyNone "Avenue Louise 54" "Brussels" "Belgium");
    auto.
Defined.

(** X21. A balance that raises ends the discovery of its borderless account
    with that exception, after the accounts of the balances before it
    have been yielded; the balances after it are not looked at. *)
Theorem discovery_stops_at_first_exception
    (borderless_account bad : pyval) (before after : list pyval)
    (yielded : list BankAccount) (e : exn) :
  collect_balances borderless_account before = (yielded, None) ->
  collect_balance borderless_account bad = Raise e ->
  collect_balances borderless_account (before ++ bad :: after) = (yielded, Some e).
Proof.
  revert yielded. induction before as [|a rest IH]; simpl; intros yielded Hb Hbad.
  - injection Hb as <-. rewrite Hbad. reflexivity.
  - destruct (collect_balance borderless_account a) as [[b|]|ex]; simpl in *.
    + destruct (collect_balances borderless_account rest) as [bs o] eqn:Er.
      injection Hb as <- ->. rewrite (IH bs eq_refl Hbad). reflexivity.
    + apply IH; assumption.
    + discriminate Hb.
Qed.

Lemma discovery_stops_at_first_exception_witness :
  let nameless :=
    PyDict [("bankDetails",
              PyDict [("currency", PyStr "EUR");
                      ("bankAddress",
                        PyDict [("addressFirstLine", PyStr "Avenue Louise 54");
                                ("city", PyStr "Brussels");
                                ("postCode", PyStr "1050");
                                ("country", PyStr "Belgium")])])] in
  let run :=
    collect_balances Sample.borderless_account
      ([Sample.plain_balance] ++ nameless :: [Sample.euro_balance]) in
  map acct_id (fst run) = [PyStr "12345678"] /\
  snd run = Some (Exn AttributeError "bankName").
Proof.
  cbv zeta.
  pose proof (discovery_stops_at_first_exception Sample.borderless_account
                (PyDict [("bankDetails",
                           PyDict [("currency", PyStr "EUR");
                                   ("bankAddress",
                                     PyDict [("addressFirstLine", PyStr "Avenue Louise 54");
                                             ("city", PyStr "Brussels");
                                             ("postCode", PyStr "1050");
                                             ("country", PyStr "Belgium")])])])
                [Sample.plain_balance] [Sample.euro_balance] _ _
                eq_refl eq_refl) as H.
  rewrite H. split; reflexivity.
Defined.

Lemma collect_all_clean borderless_accounts :
  Forall (fun ba => snd (_collect_bank_accounts ba) = None) borderless_accounts ->
  collect_all borderless_accounts =
    (List.concat (map (fun ba => fst (_collect_bank_accounts ba)) borderless_accounts),
     None).
Proof.
  induction 1 as [|ba rest Hba _ IH]; simpl; [reflexivity|].
  destruct (_collect_bank_accounts ba) as [bs o]. simpl in Hba. subst o.
  rewrite IH. reflexivity.
Qed.

(** X22. When the profile resolves to a truthy id and no balance raises, the
    discovery run yields the accounts of the profile's borderless
    accounts one after the other, in the order of the listing; a profile
    that resolves to a falsy id yields nothing, and the borderless
    accounts are not listed. *)
Theorem wise_retrieve_accounts_in_order
    (P : Platform) (business_profile : pyval) :
  wise_business_profile P = Ok business_profile ->
  (py_truthy business_profile = false -> wise_retrieve_accounts P = ([], None)) /\
  (forall borderless_accounts,
     py_truthy business_profile = true ->
     borderless_accounts_list P business_profile = Ok borderless_accounts ->
     Forall (fun ba => snd (_collect_bank_accounts ba) = None) borderless_accounts ->
     wise_retrieve_accounts P =
       (List.concat (map (fun ba => fst (_collect_bank_accounts ba)) borderless_accounts),
        None)).
Proof.
  intros Hp. unfold wise_retrieve_accounts. rewrite Hp. split.
  - intros ->. reflexivity.
  - intros bas -> Hl Hclean. simpl. rewrite Hl. now apply collect_all_clean.
Qed.

Lemma wise_retrieve_accounts_in_order_witness :
  let other :=
    PyDict [("id", PyInt 78); ("balances", PyList [Sample.euro_balance])] in
  map (fun b => (borderless_account_id b, currency b))
    (fst (wise_retrieve_accounts
            (Sample.platform Sample.live_config true (Ok PyNone)
               (Ok [Sample.business_profile 42])
               (fun _ => Ok [other; Sample.borderless_account])
               (fun _ => Ok PyNone))))
  = [(PyInt 78, PyStr "EUR"); (PyInt 77, PyStr "GBP"); (PyInt 77, PyStr "GBP");
     (PyInt 77, PyStr "EUR")].
Proof.
  cbv zeta.
  destruct (wise_retrieve_accounts_in_order
              (Sample.platform Sample.live_config true (Ok PyNone)
                 (Ok [Sample.business_profile 42])
                 (fun _ => Ok [PyDict [("id", PyInt 78);
                                       ("balances", PyList [Sample.euro_balance])];
                               Sample.borderless_account])
                 (fun _ => Ok PyNone))
              (PyInt 42) eq_refl) as [_ Horder].
  rewrite (Horder _ eq_refl eq_refl); [reflexivity|].
  repeat constructor.
Defined.

(** ** Account numbers of GBP balances *)

Lemma str_drop_length n : forall s,
  String.length (str_drop n s) = (String.length s - n)%nat.
Proof.
  induction n as [|n IH]; intros [|c s]; simpl; try reflexivity; try lia.
  apply IH.
Qed.

Lemma str_last_length n s :
  String.length (str_last n s) = Nat.min n (String.length s).
Proof. unfold str_last. rewrite str_drop_length. lia. Qed.

Lemma no_space_drop n : forall s, no_space s = true -> no_space (str_drop n s) = true.
Proof.
  induction n as [|n IH]; intros [|c s]; simpl; auto.
  intros H. apply andb_true_iff in H as [_ H]. auto.
Qed.

Lemma no_space_replace s : no_space (str_replace " " "" s) = true.
Proof.
  induction s as [|c s IH]; simpl; [reflexivity|].
  destruct (Ascii.eqb c " ") eqn:E.
  - exact IH.
  - simpl. rewrite E. simpl. exact IH.
Qed.

(** X23. The account number discovery gives a GBP balance whose raw account
    number is a string never has more than 8 characters; unless the raw
    value had exactly 8 characters and was taken as it is, it has no
    space in it and its length is 8 or, when fewer are left after the
    spaces are removed, that many. *)
Theorem gbp_account_number_at_most_8
    (borderless_account account bankDetails : pyval) (raw : string)
    (acct : BankAccount) :
  py_getattr account "bankDetails" = Ok bankDetails ->
  py_getattr bankDetails "currency" = Ok (PyStr "GBP") ->
  py_getattr bankDetails "accountNumber" = Ok (PyStr raw) ->
  collect_balance borderless_account account = Ok (Some acct) ->
  exists number,
    acct_id acct = PyStr number /\
    (String.length number <= 8)%nat /\
    (String.length raw <> 8%nat ->
     no_space number = true /\
     String.length number
       = Nat.min 8 (String.length (str_replace " " "" raw))).
Proof.
  intros Hbd Hcur Hraw Hy.
  destruct (collect_balance_yields _ _ _ Hy)
    as (bd & ba & routing & Ebd & _ & Er & _ & _ & Hid & _).
  rewrite Hbd in Ebd. injection Ebd as <-.
  destruct (routing_fields_gbp _ _ Hcur Er) as (raw' & _ & Hraw' & H8 & Hn8).
  rewrite Hraw in Hraw'. injection Hraw' as <-.
  destruct (Nat.eq_dec (String.length raw) 8) as [Heq | Hne].
  - exists raw. rewrite Hid, H8; [|simpl; congruence].
    split; [reflexivity|]. split; [lia | contradiction].
  - exists (str_last 8 (str_replace " " "" raw)).
    rewrite Hid, (Hn8 raw eq_refl Hne). split; [reflexivity|].
    rewrite str_last_length. split; [lia|]. intros _. split; [|reflexivity].
    unfold str_last. apply no_space_drop, no_space_replace.
Qed.

Lemma gbp_account_number_at_most_8_witness :
  exists acct number,
    collect_balance Sample.borderless_account
      (Sample.balance "GBP" "23-14-70" "GB 12 345") = Ok (Some acct) /\
    acct_id acct = PyStr number /\
    String.length number = 7%nat /\ no_space number = true.
Proof.
  eexists. 
  destruct (gbp_account_number_at_most_8 Sample.borderless_account
              (Sample.balance "GBP" "23-14-70" "GB 12 345") _ "GB 12 345" _
              eq_refl eq_refl eq_refl eq_refl)
    as (number & Hid & _ & Hshape).
  exists number. split; [reflexivity|]. split; [exact Hid|].
  destruct Hshape as [Hns Hlen]; [simpl; lia|].
  split; [rewrite Hlen; reflexivity | exact Hns].
Defined.

(** ** Health check: the shape of the report *)

(** X24. A report has one to three entries when one of the first three probes
    fails, the failed entry being its last and the only one that is
    false, and five entries otherwise; it never has four. *)
Theorem wise_validate_report_shape (P : Platform) (report : list (bool * string)) :
  wise_validate P = Ok report ->
  (exists e1, report = [e1] /\ fst e1 = false) \/
  (exists e1 e2, report = [e1; e2] /\ fst e1 = true /\ fst e2 = false) \/
  (exists e1 e2 e3,
     report = [e1; e2; e3] /\ fst e1 = true /\ fst e2 = true /\ fst e3 = false) \/
  (exists e1 e2 e3 e4 e5,
     report = [e1; e2; e3; e4; e5] /\
     fst e1 = true /\ fst e2 = true /\ fst e3 = true).
Proof.
  unfold wise_validate.
  destruct (fst (probe_environment P)) eqn:He; simpl.
  2:{ intros [= <-]. left. eauto. }
  destruct (probe_token P) as [tok|]; simpl; [|discriminate].
  destruct (fst tok) eqn:Ht; simpl.
  2:{ intros [= <-]. right; left. eauto. }
  destruct (fst (probe_connection P)) eqn:Hc; simpl.
  2:{ intros [= <-]. right; right; left. eauto 10. }
  destruct (wise_business_profile P) as [bp|]; simpl; [|discriminate].
  destruct (subscriptions_list P bp) as [hooks|]; simpl; [|discriminate].
  intros [= <-]. right; right; right. eauto 12.
Qed.

Lemma wise_validate_report_shape_witness :
  exists e1 e2,
    wise_validate
      (Sample.platform (<["TRANSFERWISE_ENVIRONMENT" := PyStr "sandbox"]> ∅)
         true (Ok PyNone) (Ok []) (fun _ => Ok []) (fun _ => Ok PyNone))
    = Ok [e1; e2] /\ fst e1 = true /\ fst e2 = false.
Proof.
  assert (Hrun : wise_validate
                   (Sample.platform (<["TRANSFERWISE_ENVIRONMENT" := PyStr "sandbox"]> ∅)
                      true (Ok PyNone) (Ok []) (fun _ => Ok []) (fun _ => Ok PyNone))
                 = Ok [(true, "Sandbox environment being used");
                       (false, "Access token not set")]) by reflexivity.
  rewrite Hrun.
  destruct (wise_validate_report_shape _ _ Hrun)
    as [(e1 & H & _) | [(e1 & e2 & H & H1 & H2) | [(e1 & e2 & e3 & H & _)
       | (e1 & e2 & e3 & e4 & e5 & H & _)]]];
    try discriminate H.
  injection H as <- <-. eexists _, _. split; [reflexivity|]. auto.
Defined.

(** The environment probe passes on the two known environments only. *)
Lemma probe_environment_true P :
  fst (probe_environment P) = true ->
  config P !! "TRANSFERWISE_ENVIRONMENT" = Some (PyStr "sandbox") \/
  config P !! "TRANSFERWISE_ENVIRONMENT" = Some (PyStr "live").
Proof.
  unfold probe_environment.
  destruct (config P !! "TRANSFERWISE_ENVIRONMENT") as [v|]; [|discriminate].
  destruct (py_eq_str v "sandbox") eqn:Es.
  - apply py_eq_str_true in Es. subst v. auto.
  - destruct (py_eq_str v "live") eqn:El; [|discriminate].
    apply py_eq_str_true in El. subst v. auto.
Qed.

(** The token probe passes on a configured value of length 36 only. *)
Lemma probe_token_true P msg :
  probe_token P = Ok (true, msg) ->
  exists token,
    config P !! "TRANSFERWISE_API_TOKEN" = Some token /\ py_len token = Ok 36%nat.
Proof.
  unfold probe_token.
  destruct (config P !! "TRANSFERWISE_API_TOKEN") as [v|]; [|discriminate].
  destruct (py_len v) as [n|] eqn:En; simpl; [|discriminate].
  destruct (Nat.eqb n 36) eqn:E36; [|discriminate].
  apply Nat.eqb_eq in E36. subst n. eauto.
Qed.

(** X25. A report whose entries are all true means what it says: the
    configured environment is "sandbox" or "live", an API token is
    configured and has length 36, the current-user call succeeded, the
    business profile resolved to a truthy id and the provider listed
    subscriptions for it; the report has five entries. *)
Theorem all_true_report_is_sound (P : Platform) (report : list (bool * string)) :
  wise_validate P = Ok report ->
  forallb fst report = true ->
  (config P !! "TRANSFERWISE_ENVIRONMENT" = Some (PyStr "sandbox") \/
   config P !! "TRANSFERWISE_ENVIRONMENT" = Some (PyStr "live")) /\
  (exists token,
     config P !! "TRANSFERWISE_API_TOKEN" = Some token /\
     py_len token = Ok 36%nat) /\
  (exists me, users_me P = Ok me) /\
  (exists business_profile webhooks,
     wise_business_profile P = Ok business_profile /\
     py_truthy business_profile = true /\
     subscriptions_list P business_profile = Ok webhooks /\
     py_truthy webhooks = true) /\
  List.length report = 5%nat.
Proof.
  unfold wise_validate.
  destruct (fst (probe_environment P)) eqn:He; simpl.
  2:{ intros [= <-]. simpl. rewrite He. discriminate. }
  destruct (probe_token P) as [[tb tm]|] eqn:Htok; simpl; [|discriminate].
  destruct tb; simpl.
  2:{ intros [= <-]. simpl. rewrite He. discriminate. }
  destruct (fst (probe_connection P)) eqn:Hc; simpl.
  2:{ intros [= <-]. simpl. rewrite He, Hc. discriminate. }
  destruct (wise_business_profile P) as [bp|]; simpl; [|discriminate].
  destruct (subscriptions_list P bp) as [hooks|] eqn:Hhooks; simpl; [|discriminate].
  intros [= <-]. simpl. rewrite He, Hc. simpl.
  unfold probe_profile, probe_webhooks.
  destruct (py_truthy bp) eqn:Hbp; simpl; [|discriminate].
  destruct (py_truthy hooks) eqn:Hh; simpl; [|discriminate].
  intros _. split; [apply probe_environment_true, He|].
  split; [eapply probe_token_true, Htok|]. split.
  - unfold probe_connection in Hc. destruct (users_me P); [eauto | discriminate Hc].
  - split; [|reflexivity]. exists bp, hooks. auto.
Qed.

Lemma all_true_report_is_sound_witness :
  let P := Sample.platform Sample.live_config true (Ok PyNone)
             (Ok [Sample.business_profile 42])
             (fun _ => Ok [Sample.borderless_account])
             (fun _ => Ok (PyList [PyDict [("name", PyStr "balances#credit")]])) in
  exists token,
    config P !! "TRANSFERWISE_API_TOKEN" = Some token /\
    py_len token = Ok 36%nat.
Proof.
  cbv zeta.
  assert (Hrun : wise_validate
                   (Sample.platform Sample.live_config true (Ok PyNone)
                      (Ok [Sample.business_profile 42])
                      (fun _ => Ok [Sample.borderless_account])
                      (fun _ => Ok (PyList [PyDict [("name", PyStr "balances#credit")]])))
                 = Ok [(true, "Live environment being used");
                       (true, "Access token set");
                       (true, "Connection to Wise API succeeded");
                       (true, "Wise business profile exists");
                       (true, "Webhook event subscriptions are present")])
    by reflexivity.
  destruct (all_true_report_is_sound _ _ Hrun eq_refl) as (_ & Htok & _).
  exact Htok.
Defined.

(** X26. An exception of profile resolution or of the subscriptions listing is
    not caught: once the first three probes have passed, it ends the
    health check and no report is returned. *)
Theorem wise_validate_lets_exceptions_escape (P : Platform) (msg : string) (e : exn) :
  fst (probe_environment P) = true ->
  probe_token P = Ok (true, msg) ->
  fst (probe_connection P) = true ->
  wise_business_profile P = Raise e \/
  (exists business_profile,
     wise_business_profile P = Ok business_profile /\
     subscriptions_list P business_profile = Raise e) ->
  wise_validate P = Raise e.
Proof.
  intros He Ht Hc H. unfold wise_validate. rewrite He, Ht. simpl. rewrite Hc. simpl.
  destruct H as [-> | (bp & -> & Hs)]; simpl; [reflexivity|].
  rewrite Hs. reflexivity.
Qed.

Lemma wise_validate_lets_exceptions_escape_witness :
  wise_validate
    (Sample.platform Sample.live_config true (Ok PyNone)
       (Ok [Sample.business_profile 42; Sample.business_profile 43])
       (fun _ => Ok []) (fun _ => Ok PyNone))
  = Raise (Exn Exception "Multiple business profiles found").
Proof.
  apply (wise_validate_lets_exceptions_escape _ "Access token set");
    try reflexivity.
  left. reflexivity.
Defined.
